(** * Ukrainian Q&A: keyword matcher and HTTP handlers

    A shallow embedding of the three variants of the application
    ([app_lightweight.py], [simple_start.py], [app.py] with
    [ukrainian_qa_model.py]) and the properties of their specification. *)

From Stdlib Require Import List NArith ZArith Arith Bool String Ascii Lia.
Import ListNotations.

#[local] Set Warnings "-register-all".
#[local] Open Scope nat_scope.

(** ** Python strings

    A Python [str] is a sequence of Unicode code points.  A literal of the
    source files is written [u "..."]: the UTF-8 bytes of the literal,
    decoded. *)

Definition str := list N.

Fixpoint utf8_decode (bytes : list N) : str :=
  match bytes with
  | [] => []
  | b0 :: r =>
      if (b0 <? 128)%N then b0 :: utf8_decode r
      else if (b0 <? 224)%N then
        match r with
        | b1 :: r1 =>
            (N.lor (N.shiftl (N.land b0 31) 6) (N.land b1 63)) :: utf8_decode r1
        | _ => []
        end
      else if (b0 <? 240)%N then
        match r with
        | b1 :: b2 :: r2 =>
            (N.lor (N.shiftl (N.land b0 15) 12)
               (N.lor (N.shiftl (N.land b1 63) 6) (N.land b2 63)))
              :: utf8_decode r2
        | _ => []
        end
      else
        match r with
        | b1 :: b2 :: b3 :: r3 =>
            (N.lor (N.shiftl (N.land b0 7) 18)
               (N.lor (N.shiftl (N.land b1 63) 12)
                  (N.lor (N.shiftl (N.land b2 63) 6) (N.land b3 63))))
              :: utf8_decode r3
        | _ => []
        end
  end.

Definition u (literal : string) : str :=
  utf8_decode (map N_of_ascii (list_ascii_of_string literal)).

Arguments u : simpl never.

(** [a == b] on strings. *)
Fixpoint str_eqb (a b : str) : bool :=
  match a, b with
  | [], [] => true
  | x :: a', y :: b' => (x =? y)%N && str_eqb a' b'
  | _, _ => false
  end.

(** [s.startswith(p)] and the substring test [p in s]. *)
Fixpoint startswith (p s : str) : bool :=
  match p, s with
  | [], _ => true
  | x :: p', y :: s' => (x =? y)%N && startswith p' s'
  | _ :: _, [] => false
  end.

Fixpoint contains (p s : str) : bool :=
  startswith p s ||
  match s with
  | [] => false
  | _ :: s' => contains p s'
  end.

(** [str.isspace] on one code point: the white space of CPython's
    [_PyUnicode_IsWhitespace]. *)
Definition isspace (c : N) : bool :=
  ((9 <=? c) && (c <=? 13) || (28 <=? c) && (c <=? 32)
   || (c =? 133) || (c =? 160) || (c =? 5760)
   || (8192 <=? c) && (c <=? 8202)
   || (c =? 8232) || (c =? 8233) || (c =? 8239) || (c =? 8287)
   || (c =? 12288))%N.

Fixpoint lstrip (s : str) : str :=
  match s with
  | [] => []
  | c :: s' => if isspace c then lstrip s' else s
  end.

Definition rstrip (s : str) : str := rev (lstrip (rev s)).

(** [s.strip()]. *)
Definition strip (s : str) : str := rstrip (lstrip s).

(** Truth value of a string: [not s] is [is_empty s]. *)
Definition is_empty (s : str) : bool :=
  match s with [] => true | _ => false end.

(** ** Exceptions, results and the object state

    A method of an object is a computation over the object's fields that
    returns a value or raises; [M S A] threads the state [S] through it. *)

Inductive exn : Type :=
| AttributeError (type_name attribute : str)
| KeyError (key : str)
| RequestError (message : str).

(** [str(e)] *)
Definition exn_str (e : exn) : str :=
  match e with
  | AttributeError ty a =>
      u "'" ++ ty ++ u "' object has no attribute '" ++ a ++ u "'"
  | KeyError k => u "'" ++ k ++ u "'"
  | RequestError m => m
  end.

Inductive result (A : Type) : Type :=
| Ok (a : A)
| Raise (e : exn).

Arguments Ok {A} a.
Arguments Raise {A} e.

Definition M (S A : Type) : Type := S -> result A * S.

Definition ret {S A} (a : A) : M S A := fun s => (Ok a, s).

Definition raise {S A} (e : exn) : M S A := fun s => (Raise e, s).

Definition bind {S A B} (m : M S A) (k : A -> M S B) : M S B :=
  fun s =>
    match m s with
    | (Ok a, s') => k a s'
    | (Raise e, s') => (Raise e, s')
    end.

(** Reading a field of [self]. *)
Definition read {S A} (field : S -> A) : M S A := fun s => (Ok (field s), s).

Definition lift {S A} (r : result A) : M S A := fun s => (r, s).

(** [try: body except Exception as e: handler] *)
Definition try_except {S A} (body : M S A) (handler : exn -> M S A) : M S A :=
  fun s =>
    match body s with
    | (Ok a, s') => (Ok a, s')
    | (Raise e, s') => handler e s'
    end.

Notation "x <- m ;; k" := (bind m (fun x => k))
  (at level 61, m at next level, right associativity).

Notation "m >> k" := (bind m (fun _ => k))
  (at level 61, right associativity).

(** ** JSON values and HTTP responses *)

Inductive json : Type :=
| JNull
| JBool (b : bool)
| JNum (n : Z)
| JFloat (mantissa exponent : Z)
| JStr (s : str)
| JArr (items : list json)
| JObj (fields : list (str * json)).

(** A Python [dict] with string keys, in insertion order. *)
Definition dict (V : Type) : Type := list (str * V).

Fixpoint lookup {V} (key : str) (d : dict V) : option V :=
  match d with
  | [] => None
  | (k, v) :: d' => if str_eqb k key then Some v else lookup key d'
  end.

(** [list(d.keys())] *)
Definition keys {V} (d : dict V) : list str := map fst d.

Definition type_name (v : json) : str :=
  match v with
  | JNull => u "NoneType"
  | JBool _ => u "bool"
  | JNum _ => u "int"
  | JFloat _ _ => u "float"
  | JStr _ => u "str"
  | JArr _ => u "list"
  | JObj _ => u "dict"
  end.

(** [data.get(key, default)]: only a dict has the method. *)
Definition py_get (data : json) (key : str) (default : json) : result json :=
  match data with
  | JObj fields =>
      match lookup key fields with
      | Some v => Ok v
      | None => Ok default
      end
  | _ => Raise (AttributeError (type_name data) (u "get"))
  end.

(** [value.strip()]: only a string has the method. *)
Definition py_strip (value : json) : result str :=
  match value with
  | JStr s => Ok (strip s)
  | _ => Raise (AttributeError (type_name value) (u "strip"))
  end.

Inductive payload : Type :=
| Html
| Json (d : dict json)
| NoBody.

Record response : Type := {
  status : N;
  headers : list (str * str);
  body : payload
}.

(** [jsonify(d)] and [jsonify(d), code] of the Flask handlers. *)
Definition jsonify (d : dict json) (code : N) : response :=
  {| status := code; headers := []; body := Json d |}.

(** What a [print] call is given: the pieces of its f-string, a text, a
    dict (shown by its [repr]) or an exception (shown by its [str]). *)
Inductive shown : Type :=
| Text (s : str)
| Repr (d : dict json)
| Error (e : exn).

(** One entry of the knowledge base: [{"keywords": [...], "answer": ...}]. *)
Record entry : Type := {
  keywords : list str;
  answer : str
}.

(** Truth value of [best_match], which is [None] or a string. *)
Definition truthy (best_match : option str) : bool :=
  match best_match with
  | None => false
  | Some topic => negb (is_empty topic)
  end.

(** ** app_lightweight.py *)

Module Lightweight.

Record LightweightUkrainianQA : Type := {
  knowledge_base : dict entry
}.

Definition __init__ : LightweightUkrainianQA :=
  {| knowledge_base :=
       [
         (u "capital",
          {| keywords := [u "capital"; u "kyiv"; u "kiev"; u "main city"];
             answer := u "The capital of Ukraine is Kyiv (also spelled Kiev). It's the largest city in Ukraine and serves as the political, economic, and cultural center of the country." |});
         (u "borscht",
          {| keywords := [u "borscht"; u "borsch"; u "soup"; u "traditional food"];
             answer := u "Borscht is a famous Ukrainian beet soup that's considered a national dish. It's made with beets, cabbage, potatoes, and often includes meat. The soup has a distinctive red color and is served with sour cream and fresh dill." |});
         (u "slava_ukraini",
          {| keywords := [u "слава україні"; u "slava ukraini"; u "glory"; u "slogan"];
             answer := u "'Слава Україні' (Slava Ukraini) means 'Glory to Ukraine' in Ukrainian. It's a patriotic slogan that has become a symbol of Ukrainian national identity and resistance. The traditional response is 'Героям слава' (Heroiam slava) which means 'Glory to the Heroes.'" |});
         (u "independence",
          {| keywords := [u "independence"; u "1991"; u "soviet union"; u "freedom"];
             answer := u "Ukraine gained independence from the Soviet Union on August 24, 1991, when the Ukrainian parliament declared independence. This followed the failed coup attempt in Moscow and the collapse of the Soviet Union. Ukraine became a sovereign nation after centuries of foreign rule." |});
         (u "geography",
          {| keywords := [u "geography"; u "borders"; u "mountains"; u "rivers"; u "black sea"];
             answer := u "Ukraine is the largest country entirely in Europe. It borders Russia, Belarus, Poland, Slovakia, Hungary, Romania, and Moldova. The Carpathian Mountains are in western Ukraine, the Black Sea borders the south, and the Dnieper River is the longest river. Ukraine has fertile soil known as 'chernozem.'" |});
         (u "culture",
          {| keywords := [u "culture"; u "traditional"; u "embroidery"; u "vyshyvanka"; u "bandura"];
             answer := u "Ukrainian culture is rich and diverse. Traditional crafts include embroidery (vyshyvanka), Easter egg decorating (pysanky), and pottery. The bandura is a traditional musical instrument. Ukrainian folk music and dance are important cultural expressions." |});
         (u "language",
          {| keywords := [u "language"; u "ukrainian"; u "phrases"; u "words"];
             answer := u "Ukrainian is the official language of Ukraine, belonging to the East Slavic group. Common phrases include: 'Привіт' (Hello), 'Дякую' (Thank you), 'Будь ласка' (Please/You're welcome), 'До побачення' (Goodbye)." |});
         (u "politics",
          {| keywords := [u "politics"; u "president"; u "zelensky"; u "government"; u "democracy"];
             answer := u "Ukraine is a democratic republic with a president and parliament. The current president is Volodymyr Zelenskyy. Ukraine has been working towards EU and NATO membership and has made significant progress in democratic reforms." |});
         (u "food",
          {| keywords := [u "food"; u "cuisine"; u "dishes"; u "vareniki"; u "holubtsi"];
             answer := u "Ukrainian cuisine features hearty, flavorful dishes. Popular foods include vareniki (dumplings), holubtsi (cabbage rolls), kasha (porridge), and various types of bread. Ukrainian food often uses ingredients like potatoes, cabbage, beets, and sour cream." |});
         (u "history",
          {| keywords := [u "history"; u "historical"; u "past"; u "ancient"; u "medieval"];
             answer := u "Ukraine has a rich history dating back to ancient times. It was part of Kyivan Rus' in the medieval period, then came under various foreign rulers including the Polish-Lithuanian Commonwealth, Russian Empire, and Soviet Union. Ukraine has a strong cultural heritage with Cossack traditions." |})
       ] |}.

Section Methods.

Variable lower : str -> str.

(** The inner loop of [find_best_match]: one topic's score. *)
Definition keyword_score (question_lower : str) (data : entry) : nat :=
  fold_left
    (fun score keyword =>
       if contains keyword question_lower then score + 1 else score)
    (keywords data) 0.

(** One round of the outer loop, on the pair [(best_match, best_score)]. *)
Definition scan_step (question_lower : str) (best : option str * nat)
    (item : str * entry) : option str * nat :=
  let '(best_match, best_score) := best in
  let '(topic, data) := item in
  let score := keyword_score question_lower data in
  if best_score <? score then (Some topic, score)
  else (best_match, best_score).

(** The outer loop over [self.knowledge_base.items()]. *)
Definition scan_topics (question_lower : str) (items : dict entry)
  : option str * nat :=
  fold_left (scan_step question_lower) items (None, 0).

Definition find_best_match (question : str) : M LightweightUkrainianQA (option str) :=
  let question_lower := lower question in
  items <- read knowledge_base ;;
  let '(best_match, best_score) := scan_topics question_lower items in
  ret (if 0 <? best_score then best_match else None).

Definition get_answer (question : str) : M LightweightUkrainianQA str :=
  if is_empty (strip question) then
    ret (u "Please ask a question about Ukrainian topics.")
  else
    let question_lower := lower question in
    if existsb (fun word => contains word question_lower)
         [u "hello"; u "hi"; u "привіт"; u "greetings"] then
      ret (u "Привіт! Hello! I'm your Ukrainian Q&A assistant. Ask me anything about Ukrainian culture, history, geography, or language! 🇺🇦")
    else if existsb (fun word => contains word question_lower)
              [u "thank"; u "дякую"; u "thanks"] then
      ret (u "Будь ласка! You're welcome! I'm happy to help you learn about Ukraine! 🇺🇦")
    else
      best_match <- find_best_match question ;;
      if truthy best_match then
        kb <- read knowledge_base ;;
        match best_match with
        | Some topic =>
            match lookup topic kb with
            | Some data => ret (answer data)
            | None => raise (KeyError topic)
            end
        | None => raise (KeyError [])
        end
      else
        ret (u "I don't have specific information about that topic in my knowledge base. "
             ++ u "Try asking about Ukrainian history, culture, geography, language, food, or politics. "
             ++ u "For example: 'What is the capital of Ukraine?' or 'Tell me about Ukrainian borscht'").

(** [POST /api/ask]; [request_json] is the outcome of [request.get_json()].
    (The calls to [logger] format a string and hand it to the logging
    module, which deals with the errors of its handlers itself: they raise
    nothing and are left out.) *)
Definition ask_question (request_json : result json)
  : M LightweightUkrainianQA response :=
  try_except
    (data <- lift request_json ;;
     field <- lift (py_get data (u "question") (JStr [])) ;;
     question <- lift (py_strip field) ;;
     if is_empty question then
       ret (jsonify [(u "error", JStr (u "Question is required"))] 400)
     else
       answer <- get_answer question ;;
       ret (jsonify [(u "question", JStr question);
                     (u "answer", JStr answer);
                     (u "success", JBool true)] 200))
    (fun e =>
       ret (jsonify
              [(u "error", JStr (u "An error occurred while processing your question"));
               (u "success", JBool false)] 500)).

(** [GET /api/health] *)
Definition health_check : M LightweightUkrainianQA response :=
  ret (jsonify [(u "status", JStr (u "healthy"));
                (u "model_loaded", JBool true);
                (u "version", JStr (u "lightweight"))] 200).

(** [GET /api/topics] *)
Definition get_topics : M LightweightUkrainianQA response :=
  kb <- read knowledge_base ;;
  let topics := keys kb in
  ret (jsonify [(u "topics", JArr (map JStr topics));
                (u "count", JNum (Z.of_nat (List.length topics)))] 200).

End Methods.

(** The module-level object [qa_system]. *)
Definition qa_system : LightweightUkrainianQA := __init__.

End Lightweight.

(** ** simple_start.py *)

Module Simple.

Record UkrainianQA : Type := {
  knowledge_base : dict entry
}.

Definition __init__ : UkrainianQA :=
  {| knowledge_base :=
       [
         (u "capital",
          {| keywords := [u "capital"; u "kyiv"; u "kiev"; u "main city"];
             answer := u "The capital of Ukraine is Kyiv (also spelled Kiev). It's the largest city in Ukraine and serves as the political, economic, and cultural center of the country." |});
         (u "borscht",
          {| keywords := [u "borscht"; u "borsch"; u "soup"; u "traditional food"];
             answer := u "Borscht is a famous Ukrainian beet soup that's considered a national dish. It's made with beets, cabbage, potatoes, and often includes meat. The soup has a distinctive red color and is served with sour cream and fresh dill." |});
         (u "slava_ukraini",
          {| keywords := [u "слава україні"; u "slava ukraini"; u "glory"; u "slogan"];
             answer := u "'Слава Україні' (Slava Ukraini) means 'Glory to Ukraine' in Ukrainian. It's a patriotic slogan that has become a symbol of Ukrainian national identity and resistance. The traditional response is 'Героям слава' (Heroiam slava) which means 'Glory to the Heroes.'" |});
         (u "independence",
          {| keywords := [u "independence"; u "1991"; u "soviet union"; u "freedom"];
             answer := u "Ukraine gained independence from the Soviet Union on August 24, 1991, when the Ukrainian parliament declared independence. This followed the failed coup attempt in Moscow and the collapse of the Soviet Union. Ukraine became a sovereign nation after centuries of foreign rule." |});
         (u "geography",
          {| keywords := [u "geography"; u "borders"; u "mountains"; u "rivers"; u "black sea"];
             answer := u "Ukraine is the largest country entirely in Europe. It borders Russia, Belarus, Poland, Slovakia, Hungary, Romania, and Moldova. The Carpathian Mountains are in western Ukraine, the Black Sea borders the south, and the Dnieper River is the longest river. Ukraine has fertile soil known as 'chernozem.'" |});
         (u "culture",
          {| keywords := [u "culture"; u "traditional"; u "embroidery"; u "vyshyvanka"; u "bandura"];
             answer := u "Ukrainian culture is rich and diverse. Traditional crafts include embroidery (vyshyvanka), Easter egg decorating (pysanky), and pottery. The bandura is a traditional musical instrument. Ukrainian folk music and dance are important cultural expressions." |});
         (u "language",
          {| keywords := [u "language"; u "ukrainian"; u "phrases"; u "words"];
             answer := u "Ukrainian is the official language of Ukraine, belonging to the East Slavic group. Common phrases include: 'Привіт' (Hello), 'Дякую' (Thank you), 'Будь ласка' (Please/You're welcome), 'До побачення' (Goodbye)." |});
         (u "politics",
          {| keywords := [u "politics"; u "president"; u "zelensky"; u "government"; u "democracy"];
             answer := u "Ukraine is a democratic republic with a president and parliament. The current president is Volodymyr Zelenskyy. Ukraine has been working towards EU and NATO membership and has made significant progress in democratic reforms." |});
         (u "food",
          {| keywords := [u "food"; u "cuisine"; u "dishes"; u "vareniki"; u "holubtsi"];
             answer := u "Ukrainian cuisine features hearty, flavorful dishes. Popular foods include vareniki (dumplings), holubtsi (cabbage rolls), kasha (porridge), and various types of bread. Ukrainian food often uses ingredients like potatoes, cabbage, beets, and sour cream." |});
         (u "history",
          {| keywords := [u "history"; u "historical"; u "past"; u "ancient"; u "medieval"];
             answer := u "Ukraine has a rich history dating back to ancient times. It was part of Kyivan Rus' in the medieval period, then came under various foreign rulers including the Polish-Lithuanian Commonwealth, Russian Empire, and Soviet Union. Ukraine has a strong cultural heritage with Cossack traditions." |})
       ] |}.

Section Methods.

Variable lower : str -> str.

(** The console and the parser of the handler: [print pieces] is whether
    writing the formatted pieces to standard output returns or raises;
    [loads text] is [json.loads(text)]. *)
Variable print : list shown -> result unit.
Variable loads : str -> result json.

(** The inner loop of [find_best_match]: one topic's score. *)
Definition keyword_score (question_lower : str) (data : entry) : nat :=
  fold_left
    (fun score keyword =>
       if contains keyword question_lower then score + 1 else score)
    (keywords data) 0.

(** One round of the outer loop, on the pair [(best_match, best_score)]. *)
Definition scan_step (question_lower : str) (best : option str * nat)
    (item : str * entry) : option str * nat :=
  let '(best_match, best_score) := best in
  let '(topic, data) := item in
  let score := keyword_score question_lower data in
  if best_score <? score then (Some topic, score)
  else (best_match, best_score).

(** The outer loop over [self.knowledge_base.items()]. *)
Definition scan_topics (question_lower : str) (items : dict entry)
  : option str * nat :=
  fold_left (scan_step question_lower) items (None, 0).

Definition find_best_match (question : str) : M UkrainianQA (option str) :=
  let question_lower := lower question in
  items <- read knowledge_base ;;
  let '(best_match, best_score) := scan_topics question_lower items in
  ret (if 0 <? best_score then best_match else None).

Definition get_answer (question : str) : M UkrainianQA str :=
  if is_empty (strip question) then
    ret (u "Please ask a question about Ukrainian topics.")
  else
    let question_lower := lower question in
    if existsb (fun word => contains word question_lower)
         [u "hello"; u "hi"; u "привіт"; u "greetings"] then
      ret (u "Привіт! Hello! I'm your Ukrainian Q&A assistant. Ask me anything about Ukrainian culture, history, geography, or language! 🇺🇦")
    else if existsb (fun word => contains word question_lower)
              [u "thank"; u "дякую"; u "thanks"] then
      ret (u "Будь ласка! You're welcome! I'm happy to help you learn about Ukraine! 🇺🇦")
    else
      best_match <- find_best_match question ;;
      if truthy best_match then
        kb <- read knowledge_base ;;
        match best_match with
        | Some topic =>
            match lookup topic kb with
            | Some data => ret (answer data)
            | None => raise (KeyError topic)
            end
        | None => raise (KeyError [])
        end
      else
        ret (u "I don't have specific information about that topic in my knowledge base. "
             ++ u "Try asking about Ukrainian history, culture, geography, language, food, or politics. "
             ++ u "For example: 'What is the capital of Ukraine?' or 'Tell me about Ukrainian borscht'").

Definition send_json (code : N) (hdrs : list (str * str)) (d : dict json)
  : response :=
  {| status := code;
     headers := (u "Content-type", u "application/json") :: hdrs;
     body := Json d |}.

(** [UkrainianQAHandler.do_GET] on [self.path]. *)
Definition do_GET (path : str) : M UkrainianQA response :=
  if existsb (str_eqb path) [u "/"; u "/?"; u "/index.html"] then
    ret {| status := 200;
           headers := [(u "Content-type", u "text/html; charset=utf-8");
                       (u "Cache-Control", u "no-cache, no-store, must-revalidate");
                       (u "Pragma", u "no-cache");
                       (u "Expires", u "0")];
           body := Html |}
  else if str_eqb path (u "/api/health") then
    ret (send_json 200 []
           [(u "status", JStr (u "healthy"));
            (u "model_loaded", JBool true);
            (u "version", JStr (u "simple"))])
  else if str_eqb path (u "/api/topics") then
    kb <- read knowledge_base ;;
    let topics := keys kb in
    ret (send_json 200 []
           [(u "topics", JArr (map JStr topics));
            (u "count", JNum (Z.of_nat (List.length topics)))])
  else
    ret {| status := 302; headers := [(u "Location", u "/")]; body := NoBody |}.

(** [UkrainianQAHandler.do_POST] on [self.path]; [received] is the outcome
    of reading [Content-Length] bytes of the request and decoding them as
    UTF-8 (the text, or the exception of the header, the read or the
    decoding).  Writing the response to the socket is taken to succeed. *)
Definition do_POST (path : str) (received : result str)
  : M UkrainianQA response :=
  lift (print [Text (u "Received POST request to: "); Text path]) >>
  (if str_eqb path (u "/api/ask") then
     try_except
       (text <- lift received ;;
        lift (print [Text (u "Received data: "); Text text]) >>
        (data <- lift (loads text) ;;
         field <- lift (py_get data (u "question") (JStr [])) ;;
         question <- lift (py_strip field) ;;
         reply <-
           (if is_empty question then
              ret [(u "error", JStr (u "Question is required"));
                   (u "success", JBool false)]
            else
              answer <- get_answer question ;;
              ret [(u "question", JStr question);
                   (u "answer", JStr answer);
                   (u "success", JBool true)]) ;;
         lift (print [Text (u "Sending response: "); Repr reply]) >>
         ret (send_json 200
                [(u "Access-Control-Allow-Origin", u "*");
                 (u "Access-Control-Allow-Methods", u "POST, GET, OPTIONS");
                 (u "Access-Control-Allow-Headers", u "Content-Type")]
                reply)))
       (fun e =>
          lift (print [Text (u "Error processing request: "); Error e]) >>
          ret (send_json 500 []
                 [(u "error", JStr (u "An error occurred: " ++ exn_str e));
                  (u "success", JBool false)]))
   else
     ret {| status := 404; headers := []; body := NoBody |}).

End Methods.

(** The module-level object [qa_system]. *)
Definition qa_system : UkrainianQA := __init__.

End Simple.

(** ** app.py and ukrainian_qa_model.py *)

Module ML.

(** The attribute of [UkrainianQAModel] the handlers of [app.py] read:
    the ready flag.  (The other attributes are in [Model] below.) *)
Record UkrainianQAModel : Type := {
  model_ready : bool
}.

(** [_initialize_model], as far as the ready flag goes: [loaded] is whether
    the [try] block ran through (the value is whether an API key was
    found) or raised; the flag is set at the end of the block and unset by
    the [except]. *)
Definition _initialize_model (loaded : result bool) (self : UkrainianQAModel)
  : UkrainianQAModel :=
  match loaded with
  | Ok has_key => {| model_ready := true |}
  | Raise _ => {| model_ready := false |}
  end.

Definition __init__ (loaded : result bool) : UkrainianQAModel :=
  _initialize_model loaded {| model_ready := false |}.

Definition is_ready : M UkrainianQAModel bool := read model_ready.

Section Methods.

(** What [_find_relevant_context] followed by [_get_openai_answer] or
    [_get_local_answer] produces for a question. *)
Variable generate : str -> result str.

Definition get_answer (question : str) : M UkrainianQAModel str :=
  ready <- read model_ready ;;
  if negb ready then
    ret (u "I'm sorry, but the model is not ready yet. Please try again in a moment.")
  else
    lift (generate question).

(** [POST /api/ask] *)
Definition ask_question (request_json : result json)
  : M UkrainianQAModel response :=
  try_except
    (data <- lift request_json ;;
     field <- lift (py_get data (u "question") (JStr [])) ;;
     question <- lift (py_strip field) ;;
     if is_empty question then
       ret (jsonify [(u "error", JStr (u "Question is required"))] 400)
     else
       answer <- get_answer question ;;
       ret (jsonify [(u "question", JStr question);
                     (u "answer", JStr answer);
                     (u "success", JBool true)] 200))
    (fun e =>
       ret (jsonify
              [(u "error", JStr (u "An error occurred while processing your question"));
               (u "success", JBool false)] 500)).

End Methods.

(** [GET /api/health] *)
Definition health_check : M UkrainianQAModel response :=
  ready <- is_ready ;;
  ret (jsonify [(u "status", JStr (u "healthy"));
                (u "model_loaded", JBool ready)] 200).

End ML.

(** ** A lower-casing function

    [str.lower] is a built-in of the interpreter; the methods above take
    it as [lower].  [lower_basic] is [str.lower] on Basic Latin and on the
    Ukrainian and Russian alphabets (every other code point is kept): it is
    the instance at which the development is run on concrete questions. *)

Definition lower_cp (c : N) : N :=
  (if (65 <=? c) && (c <=? 90) then c + 32
   else if (1040 <=? c) && (c <=? 1071) then c + 32
   else if (1024 <=? c) && (c <=? 1039) then c + 80
   else if c =? 1168 then 1169
   else c)%N.

Definition lower_basic (s : str) : str := map lower_cp s.

(** Code points every lower-casing leaves alone wherever they stand: the
    space, the digits, the small Latin letters and the small Cyrillic
    letters U+0430 to U+045F. *)
Definition lowercase_stable (c : N) : bool :=
  ((c =? 32) || (48 <=? c) && (c <=? 57) || (97 <=? c) && (c <=? 122)
   || (1072 <=? c) && (c <=? 1119))%N.

(** ** Vocabulary of the specification *)

(** The number of a topic's keywords that occur in the lower-cased
    question. *)
Definition keyword_overlap (question_lower : str) (data : entry) : nat :=
  List.length (filter (fun keyword => contains keyword question_lower)
                 (keywords data)).

(** Some word of [words] occurs in [s]. *)
Definition mentions (words : list str) (s : str) : bool :=
  existsb (fun word => contains word s) words.

Definition greeting_words : list str :=
  [u "hello"; u "hi"; u "привіт"; u "greetings"].

Definition thanks_words : list str :=
  [u "thank"; u "дякую"; u "thanks"].

Definition greeting_response : str :=
  u "Привіт! Hello! I'm your Ukrainian Q&A assistant. Ask me anything about Ukrainian culture, history, geography, or language! 🇺🇦".

Definition thanks_response : str :=
  u "Будь ласка! You're welcome! I'm happy to help you learn about Ukraine! 🇺🇦".

Definition blank_response : str :=
  u "Please ask a question about Ukrainian topics.".

Definition fallback_message : str :=
  u "I don't have specific information about that topic in my knowledge base. Try asking about Ukrainian history, culture, geography, language, food, or politics. For example: 'What is the capital of Ukraine?' or 'Tell me about Ukrainian borscht'".

(** The value a computation returns from a state, and the state it leaves. *)
Definition returns {S A} (m : M S A) (s : S) : result A := fst (m s).
Definition leaves {S A} (m : M S A) (s : S) : S := snd (m s).

(** A topic with an entry whose overlap no entry of the base exceeds. *)
Definition maximal_overlap (question_lower : str) (kb : dict entry)
    (topic : str) : Prop :=
  exists data,
    In (topic, data) kb /\
    forall topic' data',
      In (topic', data') kb ->
      keyword_overlap question_lower data' <= keyword_overlap question_lower data.

(** Every topic has overlap zero. *)
Definition no_overlap (question_lower : str) (kb : dict entry) : Prop :=
  forall topic data,
    In (topic, data) kb -> keyword_overlap question_lower data = 0.

(** No keyword of any topic occurs in [s]. *)
Definition matches_no_keyword (kb : dict entry) (s : str) : bool :=
  forallb (fun item => negb (mentions (keywords (snd item)) s)) kb.

(** [data] scores higher than every entry listed before it and at least as
    high as every entry listed after it. *)
Definition first_best (question_lower : str) (data : entry)
    (earlier later : dict entry) : bool :=
  forallb (fun item =>
             keyword_overlap question_lower (snd item)
             <? keyword_overlap question_lower data) earlier
  && forallb (fun item =>
                keyword_overlap question_lower (snd item)
                <=? keyword_overlap question_lower data) later.

(** What the scan has established once the entries [seen] are behind it. *)
Definition scan_invariant (question_lower : str) (seen : dict entry)
    (best : option str * nat) : Prop :=
  (forall topic data,
      In (topic, data) seen -> keyword_overlap question_lower data <= snd best)
  /\ ((snd best = 0 /\ fst best = None)
      \/ (0 < snd best /\
          exists topic data,
            fst best = Some topic /\ In (topic, data) seen /\
            keyword_overlap question_lower data = snd best)).

(** The posted object has no [question], or a string that strips to
    nothing. *)
Definition blank_question (fields : dict json) : bool :=
  match lookup (u "question") fields with
  | None => true
  | Some (JStr s) => is_empty (strip s)
  | Some _ => false
  end.

(** The posted object has a string [question] that does not strip to
    nothing. *)
Definition asks (fields : dict json) : option str :=
  match lookup (u "question") fields with
  | Some (JStr s) => if is_empty (strip s) then None else Some (strip s)
  | _ => None
  end.

(** The request makes a statement of the [try] block raise: it could not be
    read or parsed, it is no object, or its [question] is no string. *)
Definition raises_in_try (posted : result json) : bool :=
  match posted with
  | Raise _ => true
  | Ok (JObj fields) =>
      match lookup (u "question") fields with
      | None | Some (JStr _) => false
      | Some _ => true
      end
  | Ok _ => true
  end.

(** Status and JSON body of a handler's outcome. *)
Definition status_of (r : result response) : option N :=
  match r with
  | Ok resp => Some (status resp)
  | Raise _ => None
  end.

Definition json_of (r : result response) : option (dict json) :=
  match r with
  | Ok {| body := Json d |} => Some d
  | _ => None
  end.

(** The value of one key of the JSON body. *)
Definition json_field (key : str) (r : result response) : option json :=
  match json_of r with
  | Some d => lookup key d
  | None => None
  end.

(** The keys of the JSON body. *)
Definition json_keys (r : result response) : option (list str) :=
  match json_of r with
  | Some d => Some (keys d)
  | None => None
  end.

Definition required_error : json := JStr (u "Question is required").

(** [get_answer] read as a function of the knowledge base and the question
    (both files are shown to compute it, on any object). *)
Definition answer_of (lower : str -> str) (kb : dict entry) (question : str)
  : result str :=
  if is_empty (strip question) then Ok blank_response
  else if mentions greeting_words (lower question) then Ok greeting_response
  else if mentions thanks_words (lower question) then Ok thanks_response
  else
    let best := Lightweight.scan_topics (lower question) kb in
    match (if 0 <? snd best then fst best else None) with
    | Some topic =>
        if is_empty topic then Ok fallback_message
        else match lookup topic kb with
             | Some data => Ok (answer data)
             | None => Raise (KeyError topic)
             end
    | None => Ok fallback_message
    end.

(** A computation that leaves every state as it found it. *)
Definition read_only {S A} (m : M S A) : Prop :=
  forall s, leaves m s = s.

Definition processing_error : json :=
  JStr (u "An error occurred while processing your question").

(** ** Writing a field, sequencing, loops *)

Definition modify {S} (f : S -> S) : M S unit := fun s => (Ok tt, f s).

(** [for x in items: body] *)
Fixpoint for_each {S A} (items : list A) (body : A -> M S unit) : M S unit :=
  match items with
  | [] => ret tt
  | x :: rest => body x >> for_each rest body
  end.

(** ** More of Python's lists, strings and dicts *)

Definition newline : str := [10%N].

(** [sep.join(parts)] *)
Fixpoint join (sep : str) (parts : list str) : str :=
  match parts with
  | [] => []
  | part :: rest =>
      match rest with
      | [] => part
      | _ :: _ => part ++ sep ++ join sep rest
      end
  end.

(** Truth value of a list: [not l] is [is_nil l]. *)
Definition is_nil {A} (l : list A) : bool :=
  match l with [] => true | _ => false end.

(** An exception the handlers do not tell apart is carried by its
    message; this is [IndexError]. *)
Definition IndexError : exn := RequestError (u "list index out of range").

(** [l[idx]]: a negative index counts from the end. *)
Definition py_index {A} (l : list A) (idx : Z) : result A :=
  let n := Z.of_nat (List.length l) in
  let position := (if idx <? 0 then n + idx else idx)%Z in
  if (position <? 0)%Z then Raise IndexError
  else match nth_error l (Z.to_nat position) with
       | Some x => Ok x
       | None => Raise IndexError
       end.

(** [d.get(key, default)] on a dict. *)
Definition get_default {V} (key : str) (default : V) (d : dict V) : V :=
  match lookup key d with
  | Some v => v
  | None => default
  end.

(** [d[key] = v]: a present key keeps its place, a new one goes last. *)
Fixpoint dict_set {V} (key : str) (v : V) (d : dict V) : dict V :=
  match d with
  | [] => [(key, v)]
  | (k, w) :: d' =>
      if str_eqb k key then (k, v) :: d' else (k, w) :: dict_set key v d'
  end.

(** ** ukrainian_qa_model.py, method by method *)

Module Model.

(** One entry of the model's knowledge base:
    [{'text': ..., 'category': ..., 'source': ...}]. *)
Record kb_entry : Type := {
  text : str;
  category : str;
  source : str
}.

(** The attributes of [UkrainianQAModel].  The embedding model, the index
    and the client are objects of external libraries: the record holds
    whether each is set. *)
Record UkrainianQAModel : Type := {
  model_ready : bool;
  embedding_model : bool;
  knowledge_base : list kb_entry;
  faiss_index : bool;
  openai_client : bool;
  ukrainian_knowledge : dict (list str)
}.

Definition set_model_ready (b : bool) (self : UkrainianQAModel) :=
  {| model_ready := b;
     embedding_model := embedding_model self;
     knowledge_base := knowledge_base self;
     faiss_index := faiss_index self;
     openai_client := openai_client self;
     ukrainian_knowledge := ukrainian_knowledge self |}.

Definition set_embedding_model (b : bool) (self : UkrainianQAModel) :=
  {| model_ready := model_ready self;
     embedding_model := b;
     knowledge_base := knowledge_base self;
     faiss_index := faiss_index self;
     openai_client := openai_client self;
     ukrainian_knowledge := ukrainian_knowledge self |}.

Definition set_knowledge_base (kb : list kb_entry) (self : UkrainianQAModel) :=
  {| model_ready := model_ready self;
     embedding_model := embedding_model self;
     knowledge_base := kb;
     faiss_index := faiss_index self;
     openai_client := openai_client self;
     ukrainian_knowledge := ukrainian_knowledge self |}.

Definition set_faiss_index (b : bool) (self : UkrainianQAModel) :=
  {| model_ready := model_ready self;
     embedding_model := embedding_model self;
     knowledge_base := knowledge_base self;
     faiss_index := b;
     openai_client := openai_client self;
     ukrainian_knowledge := ukrainian_knowledge self |}.

Definition set_openai_client (b : bool) (self : UkrainianQAModel) :=
  {| model_ready := model_ready self;
     embedding_model := embedding_model self;
     knowledge_base := knowledge_base self;
     faiss_index := faiss_index self;
     openai_client := b;
     ukrainian_knowledge := ukrainian_knowledge self |}.

(** The attributes as [__init__] sets them before [_initialize_model]. *)
Definition fresh : UkrainianQAModel :=
  {| model_ready := false;
     embedding_model := false;
     knowledge_base := [];
     faiss_index := false;
     openai_client := false;
     ukrainian_knowledge :=
       [
         (u "history",
          [u "Ukraine gained independence from the Soviet Union in 1991";
           u "The capital of Ukraine is Kyiv (Kiev)";
           u "Ukraine is the largest country entirely in Europe";
           u "The Ukrainian language belongs to the East Slavic group";
           u "Ukraine has a rich cultural heritage with Cossack traditions"]);
         (u "culture",
          [u "Ukrainian embroidery (vyshyvanka) is a traditional craft";
           u "Borscht is a famous Ukrainian beet soup";
           u "The bandura is a traditional Ukrainian musical instrument";
           u "Ukrainian Easter eggs (pysanky) are decorated with wax";
           u "The sunflower is Ukraine's national flower"]);
         (u "geography",
          [u "Ukraine borders Russia, Belarus, Poland, Slovakia, Hungary, Romania, and Moldova";
           u "The Carpathian Mountains are in western Ukraine";
           u "The Black Sea borders Ukraine to the south";
           u "The Dnieper River is Ukraine's longest river";
           u "Ukraine has fertile soil known as 'chernozem'"]);
         (u "politics",
          [u "Ukraine is a democratic republic with a president and parliament";
           u "The current president is Volodymyr Zelenskyy";
           u "Ukraine has been working towards EU and NATO membership";
           u "The country has faced challenges with Russian aggression since 2014";
           u "Ukraine has made significant progress in democratic reforms"])
       ] |}.

Definition ukrainian_phrases : list str :=
    [u "Доброго ранку - Good morning";
     u "Дякую - Thank you";
     u "Будь ласка - Please/You're welcome";
     u "Привіт - Hello";
     u "До побачення - Goodbye";
     u "Слава Україні - Glory to Ukraine";
     u "Героям слава - Glory to the Heroes"].

(** [self.knowledge_base.append(entry)] *)
Definition append_entry (e : kb_entry) : M UkrainianQAModel unit :=
  modify (fun self => set_knowledge_base (knowledge_base self ++ [e]) self).

Definition _build_knowledge_base : M UkrainianQAModel unit :=
  modify (set_knowledge_base []) >>
  (items <- read ukrainian_knowledge ;;
   for_each items
     (fun item =>
        let '(cat, facts) := item in
        for_each facts
          (fun fact =>
             append_entry {| text := fact;
                             category := cat;
                             source := u "ukrainian_knowledge_base" |}))) >>
  for_each ukrainian_phrases
    (fun phrase =>
       append_entry {| text := phrase;
                       category := u "language";
                       source := u "ukrainian_phrases" |}).

Section Methods.

Variable lower : str -> str.

(** The world outside the class: [os.getenv('OPENAI_API_KEY')]; whether
    [openai.OpenAI(api_key=...)] and [SentenceTransformer(...)] return or
    raise; whether encoding the texts and filling the index does; the
    indices [index.search] returns for a question and [top_k] (row 0); the
    content of the first choice of a chat completion for a system message
    and a prompt. *)
Variable getenv_key : option str.
Variable make_client : str -> result unit.
Variable load_embedder : result unit.
Variable build_index : list str -> result unit.
Variable search : str -> Z -> result (list Z).
Variable complete : str -> str -> result str.

Definition _build_faiss_index : M UkrainianQAModel unit :=
  kb <- read knowledge_base ;;
  embedder <- read embedding_model ;;
  if is_nil kb || negb embedder then ret tt
  else
    lift (build_index (map text kb)) >>
    modify (set_faiss_index true).

Definition _initialize_model : M UkrainianQAModel unit :=
  try_except
    ((match getenv_key with
      | Some key =>
          if negb (is_empty key) then
            lift (make_client key) >> modify (set_openai_client true)
          else ret tt
      | None => ret tt
      end) >>
     (lift load_embedder >> modify (set_embedding_model true)) >>
     _build_knowledge_base >>
     _build_faiss_index >>
     modify (set_model_ready true))
    (fun e => modify (set_model_ready false)).

Definition __init__ : UkrainianQAModel := leaves _initialize_model fresh.

(** The loop of [_find_relevant_context] over [indices[0]]. *)
Fixpoint gather (kb : list kb_entry) (indices : list Z)
    (relevant_contexts : list str) : result (list str) :=
  match indices with
  | [] => Ok relevant_contexts
  | idx :: rest =>
      if (idx <? Z.of_nat (List.length kb))%Z then
        match py_index kb idx with
        | Ok e => gather kb rest (relevant_contexts ++ [text e])
        | Raise x => Raise x
        end
      else gather kb rest relevant_contexts
  end.

Definition _find_relevant_context (question : str) (top_k : Z)
  : M UkrainianQAModel (list str) :=
  index <- read faiss_index ;;
  embedder <- read embedding_model ;;
  if negb index || negb embedder then ret []
  else
    indices <- lift (search question top_k) ;;
    kb <- read knowledge_base ;;
    lift (gather kb indices []).

Definition system_message : str :=
  u "You are a helpful assistant specializing in Ukrainian culture, history, geography, and language.".

(** The f-string [prompt]. *)
Definition prompt_of (context_text question : str) : str :=
  u "You are a helpful assistant specializing in Ukrainian culture, history, geography, and language. " ++ newline
  ++ u "            Answer the following question about Ukraine based on the provided context and your knowledge." ++ newline
  ++ u "            " ++ newline
  ++ u "            Context:" ++ newline
  ++ u "            " ++ context_text ++ newline
  ++ u "            " ++ newline
  ++ u "            Question: " ++ question ++ newline
  ++ u "            " ++ newline
  ++ u "            Please provide a comprehensive and accurate answer about Ukrainian topics. If the question is not related to Ukraine, politely redirect the conversation to Ukrainian topics.".

Definition _get_openai_answer (question : str) (context : list str)
  : M UkrainianQAModel str :=
  client <- read openai_client ;;
  if negb client then
    ret (u "I'm sorry, but I don't have access to advanced AI capabilities at the moment.")
  else
    try_except
      (let context_text :=
         if negb (is_nil context) then join newline context
         else u "No specific context available." in
       let prompt := prompt_of context_text question in
       content <- lift (complete system_message prompt) ;;
       ret (strip content))
      (fun e =>
         ret (u "I'm sorry, but I encountered an error while processing your question.")).

(** [_get_local_answer] reads no attribute of [self]. *)
Definition _get_local_answer (question : str) (context : list str) : str :=
  if is_nil context then
    u "I don't have specific information about that topic in my Ukrainian knowledge base. Could you ask about Ukrainian history, culture, geography, or language?"
  else
    let context_text := join (u " ") context in
    if contains (u "language") (lower question)
       || contains (u "ukrainian") (lower question) then
      u "Based on my knowledge: " ++ context_text
    else if contains (u "history") (lower question) then
      u "From Ukrainian history: " ++ context_text
    else if contains (u "culture") (lower question) then
      u "In Ukrainian culture: " ++ context_text
    else if contains (u "geography") (lower question) then
      u "Regarding Ukrainian geography: " ++ context_text
    else
      u "Here's what I know about Ukraine: " ++ context_text.

Definition get_answer (question : str) : M UkrainianQAModel str :=
  ready <- read model_ready ;;
  if negb ready then
    ret (u "I'm sorry, but the model is not ready yet. Please try again in a moment.")
  else
    context <- _find_relevant_context question 3 ;;
    client <- read openai_client ;;
    if client then _get_openai_answer question context
    else ret (_get_local_answer question context).

End Methods.

Definition is_ready : M UkrainianQAModel bool := read model_ready.

(** The dict [get_knowledge_stats] returns. *)
Record stats : Type := {
  total_entries : nat;
  categories : dict nat
}.

(** The loop of [get_knowledge_stats]. *)
Definition count_categories (kb : list kb_entry) : dict nat :=
  fold_left
    (fun counts e =>
       let cat := category e in
       dict_set cat (get_default cat 0 counts + 1) counts)
    kb [].

Definition get_knowledge_stats : M UkrainianQAModel stats :=
  kb <- read knowledge_base ;;
  if is_nil kb then ret {| total_entries := 0; categories := [] |}
  else
    ret {| total_entries := List.length kb;
           categories := count_categories kb |}.

(** The attribute the handlers of [app.py] read. *)
Definition handler_view (self : UkrainianQAModel) : ML.UkrainianQAModel :=
  {| ML.model_ready := model_ready self |}.

End Model.

(** ** Further vocabulary *)

(** The status the Flask handlers of [POST /api/ask] answer a request
    with, read off the request. *)
Definition flask_status (posted : result json) : N :=
  match posted with
  | Ok (JObj fields) =>
      match lookup (u "question") fields with
      | None => 400
      | Some (JStr s) => if is_empty (strip s) then 400 else 200
      | Some _ => 500
      end
  | _ => 500
  end.

(** The entries [_build_knowledge_base] is to leave: one per fact of each
    category, in order, then one per phrase. *)
Definition fact_entries (knowledge : dict (list str)) : list Model.kb_entry :=
  flat_map
    (fun item =>
       map (fun fact =>
              {| Model.text := fact;
                 Model.category := fst item;
                 Model.source := u "ukrainian_knowledge_base" |})
         (snd item))
    knowledge.

Definition phrase_entries : list Model.kb_entry :=
  map (fun phrase =>
         {| Model.text := phrase;
            Model.category := u "language";
            Model.source := u "ukrainian_phrases" |})
    Model.ukrainian_phrases.

(** The number of entries of a category. *)
Definition entries_in (cat : str) (kb : list Model.kb_entry) : nat :=
  List.length (filter (fun e => str_eqb (Model.category e) cat) kb).

(** The sum of the counts of a dict. *)
Definition total_count (d : dict nat) : nat :=
  fold_right (fun item n => snd item + n) 0 d.

(** The entry an index that passes the test of [_find_relevant_context]
    selects, for an index that is in range. *)
Definition picked (kb : list Model.kb_entry) (idx : Z) : option str :=
  if (idx <? Z.of_nat (List.length kb))%Z then
    match py_index kb idx with
    | Ok e => Some (Model.text e)
    | Raise _ => None
    end
  else None.

Definition not_ready_message : str :=
  u "I'm sorry, but the model is not ready yet. Please try again in a moment.".

Definition api_error_message : str :=
  u "I'm sorry, but I encountered an error while processing your question.".

Definition no_client_message : str :=
  u "I'm sorry, but I don't have access to advanced AI capabilities at the moment.".

Definition no_context_message : str :=
  u "I don't have specific information about that topic in my Ukrainian knowledge base. Could you ask about Ukrainian history, culture, geography, or language?".

(** A console that accepts whatever is printed. *)
Definition console_ok : list shown -> result unit := fun _ => Ok tt.

(** The request body [{"question": ""}], with its double quotes. *)
Definition double_quote : str := [34%N].

Definition empty_question_body : str :=
  u "{" ++ double_quote ++ u "question" ++ double_quote ++ u ": "
  ++ double_quote ++ double_quote ++ u "}".

(** [json.loads] as far as it is known at one text: the value there, and
    the error of an empty document elsewhere. *)
Definition loads_at (text : str) (value : json) : str -> result json :=
  fun given =>
    if str_eqb given text then Ok value
    else Raise (RequestError (u "Expecting value")).

(** What the handler of [simple_start.py] has parsed once the request is
    received: the exception of receiving, or [json.loads] of the text. *)
Definition parsed (loads : str -> result json) (received : result str)
  : result json :=
  match received with
  | Ok text => loads text
  | Raise e => Raise e
  end.

(** * Properties *)

(** ** Literals *)

Example u_ascii : u "hi" = [104; 105]%N.
Proof. reflexivity. Qed.

Example u_cyrillic : u "привіт" = [1087; 1088; 1080; 1074; 1110; 1090]%N.
Proof. reflexivity. Qed.

Example u_astral : u "🇺🇦" = [127482; 127462]%N.
Proof. reflexivity. Qed.

(** ** Strings *)

Lemma str_eqb_eq (a b : str) : str_eqb a b = true <-> a = b.
Proof.
  revert b; induction a as [|x a IH]; intros [|y b]; simpl;
    split; intros H; try congruence.
  - apply andb_true_iff in H as [Hx Ha].
    apply N.eqb_eq in Hx. apply IH in Ha. congruence.
  - injection H as -> ->. rewrite N.eqb_refl. simpl. now apply IH.
Qed.

Lemma str_eqb_refl (a : str) : str_eqb a a = true.
Proof. now apply str_eqb_eq. Qed.

Lemma startswith_spec (p s : str) :
  startswith p s = true <-> exists t, s = p ++ t.
Proof.
  revert s; induction p as [|x p IH]; intros s.
  - simpl. split; [intros _; now exists s | reflexivity].
  - destruct s as [|y s]; simpl.
    + split; [discriminate | intros [t Ht]; discriminate].
    + rewrite andb_true_iff, N.eqb_eq, IH. split.
      * intros [-> [t ->]]. now exists t.
      * intros [t Ht]. injection Ht as -> ->. split; [reflexivity | now exists t].
Qed.

Lemma contains_spec (p s : str) :
  contains p s = true <-> exists a b, s = a ++ p ++ b.
Proof.
  induction s as [|c s IH].
  - simpl. rewrite orb_false_r, startswith_spec. split.
    + intros [t Ht]. exists [], t. exact Ht.
    + intros (a & b & H). destruct a; [|discriminate].
      exists b. exact H.
  - cbn [contains]. rewrite orb_true_iff, startswith_spec, IH. split.
    + intros [[t Ht] | (a & b & ->)].
      * exists [], t. exact Ht.
      * now exists (c :: a), b.
    + intros (a & b & H). destruct a as [|c' a].
      * left. now exists b.
      * right. injection H as _ ->. now exists a, b.
Qed.

Lemma contains_trans (a b s : str) :
  contains a b = true -> contains b s = true -> contains a s = true.
Proof.
  rewrite !contains_spec. intros (x & y & ->) (x' & y' & ->).
  exists (x' ++ x), (y ++ y'). now rewrite <- !app_assoc.
Qed.

Lemma lstrip_blank (s : str) : forallb isspace s = true -> lstrip s = [].
Proof.
  induction s as [|c s IH]; simpl; [reflexivity|].
  intros H. apply andb_true_iff in H as [Hc Hs]. now rewrite Hc, IH.
Qed.

Lemma lstrip_nil (s : str) : lstrip s = [] -> forallb isspace s = true.
Proof.
  induction s as [|c s IH]; simpl; [reflexivity|].
  destruct (isspace c); [exact IH | discriminate].
Qed.

Lemma lstrip_cons (s : str) c t : lstrip s = c :: t -> isspace c = false.
Proof.
  induction s as [|c' s IH]; simpl; [discriminate|].
  destruct (isspace c') eqn:Hc; [exact IH|].
  intros H. injection H as -> _. exact Hc.
Qed.

(** [not s.strip()] holds exactly of the strings made of white space. *)
Lemma strip_empty_iff (s : str) :
  is_empty (strip s) = true <-> forallb isspace s = true.
Proof.
  unfold strip, rstrip. split.
  - intros H.
    assert (Hn : lstrip (rev (lstrip s)) = []).
    { destruct (lstrip (rev (lstrip s))) as [|c t] eqn:E; [reflexivity|].
      simpl in H. destruct (rev t ++ [c]) eqn:E'; [|discriminate].
      now destruct (rev t). }
    apply lstrip_nil in Hn.
    destruct (lstrip s) as [|c t] eqn:E.
    + now apply lstrip_nil.
    + apply lstrip_cons in E. simpl in Hn.
      rewrite forallb_app in Hn. simpl in Hn.
      rewrite E in Hn. now rewrite andb_false_r in Hn.
  - intros H. now rewrite (lstrip_blank _ H).
Qed.

Lemma contains_blank (p s : str) :
  forallb isspace s = true -> contains p s = true -> forallb isspace p = true.
Proof.
  intros Hs Hp. apply contains_spec in Hp as (a & b & ->).
  rewrite !forallb_app in Hs.
  apply andb_true_iff in Hs as [_ Hs].
  now apply andb_true_iff in Hs as [Hs _].
Qed.

Lemma mentions_blank (words : list str) (s : str) :
  forallb isspace s = true ->
  forallb (fun w => negb (forallb isspace w)) words = true ->
  mentions words s = false.
Proof.
  intros Hs Hw. unfold mentions.
  destruct (existsb _ words) eqn:E; [|reflexivity].
  apply existsb_exists in E as (w & Hin & Hc).
  rewrite forallb_forall in Hw. specialize (Hw w Hin).
  now rewrite (contains_blank _ _ Hs Hc) in Hw.
Qed.

(** ** The lower-casing instance *)

Lemma lower_cp_stable (c : N) : lowercase_stable c = true -> lower_cp c = c.
Proof.
  unfold lowercase_stable, lower_cp. intros H.
  repeat match goal with
         | |- context [(?a <=? ?b)%N] => destruct (N.leb_spec a b)
         | |- context [(?a =? ?b)%N] => destruct (N.eqb_spec a b)
         end; simpl; try reflexivity; exfalso;
    repeat match goal with
           | H : context [(?a <=? ?b)%N] |- _ =>
               destruct (N.leb_spec a b); try lia
           | H : context [(?a =? ?b)%N] |- _ =>
               destruct (N.eqb_spec a b); try lia
           end; simpl in H; try discriminate; try lia.
Qed.

Lemma lower_cp_space (c : N) : isspace c = true -> lower_cp c = c.
Proof.
  unfold isspace, lower_cp. intros H.
  repeat match goal with
         | |- context [(?a <=? ?b)%N] => destruct (N.leb_spec a b)
         | |- context [(?a =? ?b)%N] => destruct (N.eqb_spec a b)
         end; simpl; try reflexivity; exfalso;
    repeat match goal with
           | H : context [(?a <=? ?b)%N] |- _ =>
               destruct (N.leb_spec a b); try lia
           | H : context [(?a =? ?b)%N] |- _ =>
               destruct (N.eqb_spec a b); try lia
           end; simpl in H; try discriminate; try lia.
Qed.

Lemma lower_basic_fixes (P : N -> bool) (s : str) :
  (forall c, P c = true -> lower_cp c = c) ->
  forallb P s = true -> lower_basic s = s.
Proof.
  intros HP. induction s as [|c s IH]; simpl; [reflexivity|].
  intros H. apply andb_true_iff in H as [Hc Hs].
  now rewrite (HP c Hc), IH.
Qed.

Lemma lower_basic_blank (s : str) :
  forallb isspace s = true -> lower_basic s = s.
Proof. apply lower_basic_fixes, lower_cp_space. Qed.

Lemma lower_basic_keeps (k q : str) :
  forallb lowercase_stable k = true ->
  contains k q = true -> contains k (lower_basic q) = true.
Proof.
  intros Hk Hq. apply contains_spec in Hq as (a & b & ->).
  apply contains_spec. exists (lower_basic a), (lower_basic b).
  unfold lower_basic. rewrite !map_app. f_equal. f_equal.
  exact (lower_basic_fixes _ _ lower_cp_stable Hk).
Qed.

(** ** Dictionaries *)

Lemma lookup_in {V} (key : str) (v : V) (d : dict V) :
  In (key, v) d -> exists v', lookup key d = Some v'.
Proof.
  induction d as [|[k w] d IH]; simpl; [contradiction|].
  intros [H | H].
  - injection H as -> ->. rewrite str_eqb_refl. now exists v.
  - destruct (str_eqb k key); [now exists w | now apply IH].
Qed.

Lemma lookup_middle {V} (key : str) (v : V) (before after : dict V) :
  NoDup (keys (before ++ (key, v) :: after)) ->
  lookup key (before ++ (key, v) :: after) = Some v.
Proof.
  induction before as [|[k w] before IH]; simpl.
  - intros _. now rewrite str_eqb_refl.
  - intros H. inversion H as [|? ? Hk Hrest]; subst.
    destruct (str_eqb k key) eqn:E.
    + apply str_eqb_eq in E. subst k. exfalso. apply Hk.
      unfold keys. rewrite map_app, in_app_iff. right. now left.
    + now apply IH.
Qed.

(** ** The scan of [find_best_match] *)

Lemma keyword_score_from (question_lower : str) (kws : list str) (n : nat) :
  fold_left
    (fun score keyword =>
       if contains keyword question_lower then score + 1 else score) kws n
  = n + List.length (filter (fun keyword => contains keyword question_lower) kws).
Proof.
  revert n; induction kws as [|k kws IH]; intros n; simpl; [lia|].
  rewrite IH. destruct (contains k question_lower); simpl; lia.
Qed.

(** The score the loop counts is the keyword overlap. *)
Lemma keyword_score_overlap (question_lower : str) (data : entry) :
  Lightweight.keyword_score question_lower data
  = keyword_overlap question_lower data.
Proof.
  unfold Lightweight.keyword_score, keyword_overlap.
  now rewrite keyword_score_from.
Qed.

Lemma scan_step_eq (ql : str) (bm : option str) (bs : nat) topic data :
  Lightweight.scan_step ql (bm, bs) (topic, data)
  = if bs <? keyword_overlap ql data
    then (Some topic, keyword_overlap ql data) else (bm, bs).
Proof. unfold Lightweight.scan_step. now rewrite keyword_score_overlap. Qed.

(** Entries that do not beat the running best leave it alone. *)
Lemma scan_keeps (ql : str) (items : dict entry) bm bs :
  forallb (fun item => keyword_overlap ql (snd item) <=? bs) items = true ->
  fold_left (Lightweight.scan_step ql) items (bm, bs) = (bm, bs).
Proof.
  induction items as [|[t d] items IH]; cbn [fold_left forallb snd];
    [reflexivity|].
  intros H. apply andb_true_iff in H as [Hd Hrest].
  apply Nat.leb_le in Hd. rewrite scan_step_eq.
  destruct (Nat.ltb_spec bs (keyword_overlap ql d)); [lia|].
  now apply IH.
Qed.

(** Entries below a bound keep the running best below it. *)
Lemma scan_below (ql : str) (items : dict entry) (bound : nat) bm bs :
  bs < bound ->
  forallb (fun item => keyword_overlap ql (snd item) <? bound) items = true ->
  snd (fold_left (Lightweight.scan_step ql) items (bm, bs)) < bound.
Proof.
  revert bm bs; induction items as [|[t d] items IH]; intros bm bs Hbs;
    cbn [fold_left forallb snd]; [intros _; exact Hbs|].
  intros H. apply andb_true_iff in H as [Hd Hrest].
  apply Nat.ltb_lt in Hd. rewrite scan_step_eq.
  destruct (Nat.ltb_spec bs (keyword_overlap ql d)); now apply IH.
Qed.

(** The first entry of maximal, positive overlap wins the scan. *)
Lemma scan_first_best (ql : str) topic data (earlier later : dict entry) :
  first_best ql data earlier later = true ->
  0 < keyword_overlap ql data ->
  Lightweight.scan_topics ql (earlier ++ (topic, data) :: later)
  = (Some topic, keyword_overlap ql data).
Proof.
  unfold first_best, Lightweight.scan_topics.
  intros H Hpos. apply andb_true_iff in H as [He Hl].
  rewrite fold_left_app. cbn [fold_left].
  pose proof (scan_below ql earlier _ None 0 Hpos He) as Hlt.
  destruct (fold_left _ earlier (None, 0)) as [bm bs]. cbn [snd] in Hlt.
  rewrite scan_step_eq.
  destruct (Nat.ltb_spec bs (keyword_overlap ql data)); [|lia].
  now apply scan_keeps.
Qed.

Lemma scan_invariant_step (ql : str) (seen : dict entry) best topic data :
  scan_invariant ql seen best ->
  scan_invariant ql (seen ++ [(topic, data)])
    (Lightweight.scan_step ql best (topic, data)).
Proof.
  destruct best as [bm bs]. intros [Hmax Hbest]. simpl in Hmax, Hbest.
  rewrite scan_step_eq.
  destruct (Nat.ltb_spec bs (keyword_overlap ql data)) as [Hlt | Hge];
    split; simpl.
  - intros t d Hin. apply in_app_iff in Hin as [Hin | [Heq | []]].
    + specialize (Hmax t d Hin). lia.
    + injection Heq as _ <-. lia.
  - right. split; [lia|]. exists topic, data.
    split; [reflexivity|]. split; [|reflexivity].
    apply in_app_iff. right. now left.
  - intros t d Hin. apply in_app_iff in Hin as [Hin | [Heq | []]].
    + now apply (Hmax t).
    + injection Heq as _ <-. exact Hge.
  - destruct Hbest as [Hzero | (Hpos & t & d & Hbm & Hin & Hd)];
      [now left | right].
    split; [exact Hpos|]. exists t, d. split; [exact Hbm|].
    split; [|exact Hd]. apply in_app_iff. now left.
Qed.

Lemma scan_invariant_fold (ql : str) (items seen : dict entry) best :
  scan_invariant ql seen best ->
  scan_invariant ql (seen ++ items)
    (fold_left (Lightweight.scan_step ql) items best).
Proof.
  revert seen best; induction items as [|[t d] items IH];
    intros seen best H; cbn [fold_left].
  - now rewrite app_nil_r.
  - replace (seen ++ (t, d) :: items) with ((seen ++ [(t, d)]) ++ items)
      by now rewrite <- app_assoc.
    apply IH. now apply scan_invariant_step.
Qed.

Lemma scan_topics_invariant (ql : str) (items : dict entry) :
  scan_invariant ql items (Lightweight.scan_topics ql items).
Proof.
  apply (scan_invariant_fold ql items [] (None, 0)).
  split; simpl; [contradiction | now left].
Qed.

(** The two files hold the same loop. *)
Lemma simple_scan_topics (ql : str) (items : dict entry) :
  Simple.scan_topics ql items = Lightweight.scan_topics ql items.
Proof. reflexivity. Qed.

(** What [find_best_match] returns, on any object. *)
Lemma lightweight_find_best_match lower question self :
  Lightweight.find_best_match lower question self
  = (Ok (if 0 <? snd (Lightweight.scan_topics (lower question)
                        (Lightweight.knowledge_base self))
         then fst (Lightweight.scan_topics (lower question)
                     (Lightweight.knowledge_base self))
         else None), self).
Proof.
  unfold Lightweight.find_best_match, bind, read, ret.
  now destruct (Lightweight.scan_topics _ _).
Qed.

Lemma simple_find_best_match lower question self :
  Simple.find_best_match lower question self
  = (Ok (if 0 <? snd (Lightweight.scan_topics (lower question)
                        (Simple.knowledge_base self))
         then fst (Lightweight.scan_topics (lower question)
                     (Simple.knowledge_base self))
         else None), self).
Proof.
  unfold Simple.find_best_match, bind, read, ret.
  rewrite simple_scan_topics.
  now destruct (Lightweight.scan_topics _ _).
Qed.

(** The outcome of the scan, read against the specification. *)
Lemma best_match_spec (ql : str) (kb : dict entry) :
  let best := if 0 <? snd (Lightweight.scan_topics ql kb)
              then fst (Lightweight.scan_topics ql kb) else None in
  (forall topic, best = Some topic -> maximal_overlap ql kb topic)
  /\ (best = None <-> no_overlap ql kb).
Proof.
  destruct (scan_topics_invariant ql kb) as [Hmax Hbest].
  destruct (Lightweight.scan_topics ql kb) as [bm bs]. simpl in *.
  destruct Hbest as [[-> ->] | (Hpos & t & d & -> & Hin & Hd)]; simpl.
  - split; [discriminate|]. split; [|reflexivity].
    intros _ topic data Hin. specialize (Hmax topic data Hin). lia.
  - destruct (Nat.ltb_spec 0 bs); [|lia]. split.
    + intros topic E. injection E as <-. exists d. split; [exact Hin|].
      intros t' d' Hin'. rewrite Hd. now apply (Hmax t').
    + split; [discriminate|]. intros Hno. specialize (Hno t d Hin). lia.
Qed.

(** C2: on every question, [find_best_match] returns (without raising) a
    topic whose keyword overlap with the lower-cased question is maximal
    over the knowledge base, and it returns [None] exactly when every
    topic's overlap is zero; in [app_lightweight.py] and in
    [simple_start.py] alike. *)
Theorem find_best_match_maximal (lower : str -> str)
    (light : Lightweight.LightweightUkrainianQA) (simple : Simple.UkrainianQA)
    (question : str) :
  (exists best,
      returns (Lightweight.find_best_match lower question) light = Ok best
      /\ (forall topic,
             best = Some topic ->
             maximal_overlap (lower question)
               (Lightweight.knowledge_base light) topic)
      /\ (best = None <->
          no_overlap (lower question) (Lightweight.knowledge_base light)))
  /\ (exists best,
         returns (Simple.find_best_match lower question) simple = Ok best
         /\ (forall topic,
                best = Some topic ->
                maximal_overlap (lower question)
                  (Simple.knowledge_base simple) topic)
         /\ (best = None <->
             no_overlap (lower question) (Simple.knowledge_base simple))).
Proof.
  unfold returns. split.
  - rewrite lightweight_find_best_match. eexists. split; [reflexivity|].
    apply best_match_spec.
  - rewrite simple_find_best_match. eexists. split; [reflexivity|].
    apply best_match_spec.
Qed.

(** ** [get_answer] *)

Lemma fallback_message_eq :
  u "I don't have specific information about that topic in my knowledge base. "
  ++ u "Try asking about Ukrainian history, culture, geography, language, food, or politics. "
  ++ u "For example: 'What is the capital of Ukraine?' or 'Tell me about Ukrainian borscht'"
  = fallback_message.
Proof. vm_compute. reflexivity. Qed.

Lemma lightweight_get_answer lower question self :
  Lightweight.get_answer lower question self
  = (answer_of lower (Lightweight.knowledge_base self) question, self).
Proof.
  unfold Lightweight.get_answer, answer_of, mentions, greeting_words,
    thanks_words, blank_response, greeting_response, thanks_response, ret.
  destruct (is_empty (strip question)); [reflexivity|].
  destruct (existsb _ _); [reflexivity|].
  destruct (existsb _ _); [reflexivity|].
  unfold bind. rewrite lightweight_find_best_match, fallback_message_eq.
  cbv zeta.
  destruct (if 0 <? snd _ then _ else None) as [topic|]; [|reflexivity].
  unfold truthy. destruct (is_empty topic); [reflexivity|].
  unfold read, raise. cbn [negb].
  now destruct (lookup topic _).
Qed.

Lemma simple_get_answer lower question self :
  Simple.get_answer lower question self
  = (answer_of lower (Simple.knowledge_base self) question, self).
Proof.
  unfold Simple.get_answer, answer_of, mentions, greeting_words,
    thanks_words, blank_response, greeting_response, thanks_response, ret.
  destruct (is_empty (strip question)); [reflexivity|].
  destruct (existsb _ _); [reflexivity|].
  destruct (existsb _ _); [reflexivity|].
  unfold bind. rewrite simple_find_best_match, fallback_message_eq.
  cbv zeta.
  destruct (if 0 <? snd _ then _ else None) as [topic|]; [|reflexivity].
  unfold truthy. destruct (is_empty topic); [reflexivity|].
  unfold read, raise. cbn [negb].
  now destruct (lookup topic _).
Qed.

(** The two objects hold the same knowledge base. *)
Lemma simple_knowledge_base :
  Simple.knowledge_base Simple.qa_system
  = Lightweight.knowledge_base Lightweight.qa_system.
Proof. reflexivity. Qed.

(** [get_answer] never raises: the topic it looks up is a key. *)
Lemma answer_of_total lower kb question :
  exists answer, answer_of lower kb question = Ok answer.
Proof.
  unfold answer_of.
  destruct (is_empty (strip question)); [now eexists|].
  destruct (mentions greeting_words _); [now eexists|].
  destruct (mentions thanks_words _); [now eexists|].
  cbv zeta.
  destruct (scan_topics_invariant (lower question) kb) as [_ Hbest].
  destruct (Lightweight.scan_topics (lower question) kb) as [bm bs].
  cbn [fst snd] in *.
  destruct (0 <? bs); [|now eexists].
  destruct Hbest as [[_ ->] | (_ & t & d & -> & Hin & _)]; [now eexists|].
  destruct (is_empty t); [now eexists|].
  destruct (lookup_in t d kb Hin) as [d' ->]. now eexists.
Qed.

Lemma overlap_zero (s : str) (data : entry) :
  mentions (keywords data) s = false -> keyword_overlap s data = 0.
Proof.
  unfold mentions, keyword_overlap.
  induction (keywords data) as [|k kws IH]; simpl; [reflexivity|].
  destruct (contains k s); simpl; [discriminate | exact IH].
Qed.

Lemma overlap_positive (s : str) (data : entry) (keyword : str) :
  In keyword (keywords data) -> contains keyword s = true ->
  0 < keyword_overlap s data.
Proof.
  unfold keyword_overlap. intros Hin Hc.
  assert (H : In keyword (filter (fun k => contains k s) (keywords data)))
    by (apply filter_In; now split).
  destruct (filter _ _); [contradiction | simpl; lia].
Qed.

Lemma answer_of_fallback lower kb question :
  is_empty (strip question) = false ->
  mentions greeting_words (lower question) = false ->
  mentions thanks_words (lower question) = false ->
  matches_no_keyword kb (lower question) = true ->
  answer_of lower kb question = Ok fallback_message.
Proof.
  intros Hs Hg Ht Hno. unfold answer_of. rewrite Hs, Hg, Ht. cbv zeta.
  unfold Lightweight.scan_topics. rewrite scan_keeps; [reflexivity|].
  unfold matches_no_keyword in Hno. rewrite forallb_forall in *.
  intros item Hin. specialize (Hno item Hin).
  apply negb_true_iff, overlap_zero in Hno. now rewrite Hno.
Qed.

Lemma answer_of_first_best lower topic data (earlier later : dict entry)
    question :
  NoDup (keys (earlier ++ (topic, data) :: later)) ->
  is_empty topic = false ->
  is_empty (strip question) = false ->
  mentions greeting_words (lower question) = false ->
  mentions thanks_words (lower question) = false ->
  0 < keyword_overlap (lower question) data ->
  first_best (lower question) data earlier later = true ->
  answer_of lower (earlier ++ (topic, data) :: later) question
  = Ok (answer data).
Proof.
  intros Hnd Hne Hs Hg Ht Hpos Hbest. unfold answer_of.
  rewrite Hs, Hg, Ht. cbv zeta.
  rewrite scan_first_best by assumption. cbn [fst snd].
  destruct (Nat.ltb_spec 0 (keyword_overlap (lower question) data)); [|lia].
  now rewrite Hne, lookup_middle.
Qed.

(** ** The knowledge base of the two files *)

Lemma knowledge_base_keys_distinct :
  NoDup (keys (Lightweight.knowledge_base Lightweight.qa_system)).
Proof.
  vm_compute.
  repeat (constructor; [cbn [In]; intuition discriminate|]).
  constructor.
Qed.

Lemma knowledge_base_keys_nonempty :
  forallb (fun item => negb (is_empty (fst item)))
    (Lightweight.knowledge_base Lightweight.qa_system) = true.
Proof. vm_compute. reflexivity. Qed.

(** Every keyword is made of code points no lower-casing changes, and of
    more than white space. *)
Lemma knowledge_base_keywords_plain :
  forallb
    (fun item =>
       forallb (fun k => forallb lowercase_stable k
                         && negb (forallb isspace k))
         (keywords (snd item)))
    (Lightweight.knowledge_base Lightweight.qa_system) = true.
Proof. vm_compute. reflexivity. Qed.

Lemma keyword_plain (topic : str) (data : entry) (keyword : str) :
  In (topic, data) (Lightweight.knowledge_base Lightweight.qa_system) ->
  In keyword (keywords data) ->
  forallb lowercase_stable keyword = true
  /\ forallb isspace keyword = false.
Proof.
  intros Hitem Hkw. pose proof knowledge_base_keywords_plain as H.
  rewrite forallb_forall in H. specialize (H _ Hitem). cbn [snd] in H.
  rewrite forallb_forall in H. specialize (H _ Hkw).
  apply andb_true_iff in H as [Hst Hsp].
  now apply negb_true_iff in Hsp.
Qed.

Lemma key_nonempty (topic : str) (data : entry) :
  In (topic, data) (Lightweight.knowledge_base Lightweight.qa_system) ->
  is_empty topic = false.
Proof.
  intros Hitem. pose proof knowledge_base_keys_nonempty as H.
  rewrite forallb_forall in H. specialize (H _ Hitem).
  now apply negb_true_iff in H.
Qed.

(** A question that contains a keyword is more than white space. *)
Lemma question_not_blank (keyword question : str) :
  forallb isspace keyword = false ->
  contains keyword question = true ->
  is_empty (strip question) = false.
Proof.
  intros Hk Hc. destruct (is_empty (strip question)) eqn:E; [|reflexivity].
  apply strip_empty_iff in E.
  now rewrite (contains_blank _ _ E Hc) in Hk.
Qed.

(** C1 (as amended): for every topic of the knowledge base and every
    keyword listed for it, [get_answer] on a question that contains the
    keyword returns the topic's canned answer, provided the lower-cased
    question contains no greeting and no thanks word and the topic is the
    first of maximal keyword overlap: every topic listed before it overlaps
    less, none listed after it overlaps more. *)
Theorem keyword_answer (lower : str -> str)
    (lower_keeps :
       forall k q, forallb lowercase_stable k = true ->
                   contains k q = true -> contains k (lower q) = true)
    (topic : str) (data : entry) (earlier later : dict entry)
    (keyword question : str) :
  Lightweight.knowledge_base Lightweight.qa_system
  = earlier ++ (topic, data) :: later ->
  In keyword (keywords data) ->
  contains keyword question = true ->
  mentions greeting_words (lower question) = false ->
  mentions thanks_words (lower question) = false ->
  first_best (lower question) data earlier later = true ->
  returns (Lightweight.get_answer lower question) Lightweight.qa_system
  = Ok (answer data)
  /\ returns (Simple.get_answer lower question) Simple.qa_system
     = Ok (answer data).
Proof.
  intros Hkb Hkw Hc Hg Ht Hbest.
  assert (Hitem : In (topic, data)
                    (Lightweight.knowledge_base Lightweight.qa_system)).
  { rewrite Hkb. apply in_app_iff. right. now left. }
  destruct (keyword_plain topic data keyword Hitem Hkw) as [Hst Hsp].
  assert (Hans : answer_of lower
                   (Lightweight.knowledge_base Lightweight.qa_system)
                   question = Ok (answer data)).
  { rewrite Hkb. apply answer_of_first_best; try assumption.
    - rewrite <- Hkb. exact knowledge_base_keys_distinct.
    - exact (key_nonempty topic data Hitem).
    - exact (question_not_blank keyword question Hsp Hc).
    - apply (overlap_positive _ _ keyword Hkw). now apply lower_keeps. }
  unfold returns.
  rewrite lightweight_get_answer, simple_get_answer, simple_knowledge_base.
  now split.
Qed.

Lemma keyword_answer_witness :
  let capital :=
    {| keywords := [u "capital"; u "kyiv"; u "kiev"; u "main city"];
       answer := u "The capital of Ukraine is Kyiv (also spelled Kiev). It's the largest city in Ukraine and serves as the political, economic, and cultural center of the country." |} in
  let question := u "What is the capital of Ukraine?" in
  returns (Lightweight.get_answer lower_basic question) Lightweight.qa_system
  = Ok (answer capital)
  /\ returns (Simple.get_answer lower_basic question) Simple.qa_system
     = Ok (answer capital).
Proof.
  intros capital question.
  apply (keyword_answer lower_basic lower_basic_keeps
           (u "capital") capital
           [] (tl (Lightweight.knowledge_base Lightweight.qa_system))
           (u "capital") question).
  - vm_compute. reflexivity.
  - left. reflexivity.
  - vm_compute. reflexivity.
  - vm_compute. reflexivity.
  - vm_compute. reflexivity.
  - vm_compute. reflexivity.
Defined.

(** C1 as stated fails: "traditional food" contains the keyword "food" of
    the topic [food] (and "traditional" of [culture]), neither a greeting
    nor a thanks word, and the answer is that of [borscht], which is listed
    first among the topics of overlap one. *)
Lemma keyword_answer_counterexample :
  let question := u "traditional food" in
  let food :=
    {| keywords := [u "food"; u "cuisine"; u "dishes"; u "vareniki"; u "holubtsi"];
       answer := u "Ukrainian cuisine features hearty, flavorful dishes. Popular foods include vareniki (dumplings), holubtsi (cabbage rolls), kasha (porridge), and various types of bread. Ukrainian food often uses ingredients like potatoes, cabbage, beets, and sour cream." |} in
  In (u "food", food) (Lightweight.knowledge_base Lightweight.qa_system)
  /\ In (u "food") (keywords food)
  /\ contains (u "food") question = true
  /\ mentions greeting_words (lower_basic question) = false
  /\ mentions thanks_words (lower_basic question) = false
  /\ returns (Lightweight.get_answer lower_basic question)
       Lightweight.qa_system
     = Ok (u "Borscht is a famous Ukrainian beet soup that's considered a national dish. It's made with beets, cabbage, potatoes, and often includes meat. The soup has a distinctive red color and is served with sour cream and fresh dill.")
  /\ returns (Simple.get_answer lower_basic question) Simple.qa_system
     = returns (Lightweight.get_answer lower_basic question)
         Lightweight.qa_system
  /\ returns (Lightweight.get_answer lower_basic question)
       Lightweight.qa_system
     <> Ok (answer food).
Proof.
  cbv zeta. repeat apply conj.
  - do 8 right. left. reflexivity.
  - left. reflexivity.
  - vm_compute. reflexivity.
  - vm_compute. reflexivity.
  - vm_compute. reflexivity.
  - vm_compute. reflexivity.
  - vm_compute. reflexivity.
  - vm_compute. discriminate.
Qed.

(** C5 (as amended): for every question that is not empty once stripped of
    white space and that matches no topic keyword, no greeting word and no
    thanks word, [get_answer] returns the default fallback message. *)
Theorem unmatched_fallback (lower : str -> str) (question : str) :
  is_empty (strip question) = false ->
  mentions greeting_words (lower question) = false ->
  mentions thanks_words (lower question) = false ->
  matches_no_keyword (Lightweight.knowledge_base Lightweight.qa_system)
    (lower question) = true ->
  returns (Lightweight.get_answer lower question) Lightweight.qa_system
  = Ok fallback_message
  /\ returns (Simple.get_answer lower question) Simple.qa_system
     = Ok fallback_message.
Proof.
  intros Hs Hg Ht Hno. unfold returns.
  rewrite lightweight_get_answer, simple_get_answer, simple_knowledge_base.
  cbn [fst]. split; now apply answer_of_fallback.
Qed.

Lemma unmatched_fallback_witness :
  returns (Lightweight.get_answer lower_basic (u "What is the weather?"))
    Lightweight.qa_system = Ok fallback_message
  /\ returns (Simple.get_answer lower_basic (u "What is the weather?"))
       Simple.qa_system = Ok fallback_message.
Proof.
  apply (unmatched_fallback lower_basic (u "What is the weather?"));
    vm_compute; reflexivity.
Defined.

(** C5 as stated fails: a single space is a non-empty question that matches
    no keyword, no greeting word and no thanks word, and the answer is the
    request to ask a question, not the fallback message. *)
Lemma unmatched_fallback_counterexample :
  let question := u " " in
  question <> []
  /\ mentions greeting_words (lower_basic question) = false
  /\ mentions thanks_words (lower_basic question) = false
  /\ matches_no_keyword (Lightweight.knowledge_base Lightweight.qa_system)
       (lower_basic question) = true
  /\ returns (Lightweight.get_answer lower_basic question)
       Lightweight.qa_system
     = Ok (u "Please ask a question about Ukrainian topics.")
  /\ returns (Simple.get_answer lower_basic question) Simple.qa_system
     = Ok (u "Please ask a question about Ukrainian topics.")
  /\ returns (Lightweight.get_answer lower_basic question)
       Lightweight.qa_system
     <> Ok fallback_message.
Proof.
  cbv zeta. repeat apply conj; vm_compute; try reflexivity; discriminate.
Qed.

Lemma greeting_words_plain :
  forallb (fun w => negb (forallb isspace w)) greeting_words = true.
Proof. vm_compute. reflexivity. Qed.

Lemma history_is_greeting (s : str) :
  contains (u "history") s = true -> mentions greeting_words s = true.
Proof.
  intros H. unfold mentions, greeting_words. cbn [existsb].
  assert (Hhi : contains (u "hi") (u "history") = true)
    by (vm_compute; reflexivity).
  apply orb_true_iff. right. apply orb_true_iff. left.
  exact (contains_trans _ _ _ Hhi H).
Qed.

Lemma answer_of_greeting lower kb question :
  (forall s, forallb isspace s = true -> lower s = s) ->
  mentions greeting_words (lower question) = true ->
  answer_of lower kb question = Ok greeting_response.
Proof.
  intros Hblank Hg. unfold answer_of.
  destruct (is_empty (strip question)) eqn:E.
  - apply strip_empty_iff in E.
    rewrite (Hblank _ E) in Hg.
    rewrite (mentions_blank _ _ E greeting_words_plain) in Hg.
    discriminate Hg.
  - rewrite Hg. reflexivity.
Qed.

(** C6: greeting detection takes precedence over topic matching.  For
    every question whose lower-cased form contains "hello", "hi",
    "привіт" or "greetings", [get_answer] returns the greeting response,
    whatever the knowledge base holds and whatever topic keywords the
    question contains; in particular every question whose lower-cased form
    contains "history" contains "hi" and is answered by the greeting.
    ([lower] leaves strings of white space unchanged, as [str.lower]
    does.) *)
Theorem greeting_precedence (lower : str -> str)
    (lower_blank : forall s, forallb isspace s = true -> lower s = s)
    (light : Lightweight.LightweightUkrainianQA) (simple : Simple.UkrainianQA)
    (question : str) :
  (mentions greeting_words (lower question) = true ->
   returns (Lightweight.get_answer lower question) light
   = Ok greeting_response
   /\ returns (Simple.get_answer lower question) simple
      = Ok greeting_response)
  /\ (contains (u "history") (lower question) = true ->
      mentions greeting_words (lower question) = true
      /\ returns (Lightweight.get_answer lower question) light
         = Ok greeting_response
      /\ returns (Simple.get_answer lower question) simple
         = Ok greeting_response).
Proof.
  assert (H : mentions greeting_words (lower question) = true ->
              returns (Lightweight.get_answer lower question) light
              = Ok greeting_response
              /\ returns (Simple.get_answer lower question) simple
                 = Ok greeting_response).
  { intros Hg. unfold returns.
    rewrite lightweight_get_answer, simple_get_answer. cbn [fst].
    split; now apply answer_of_greeting. }
  split; [exact H|].
  intros Hh. apply history_is_greeting in Hh. split; [exact Hh|].
  now apply H.
Qed.

Lemma greeting_precedence_witness :
  let question := u "Ukrainian independence history" in
  contains (u "history") (lower_basic question) = true
  /\ mentions (keywords {| keywords := [u "independence"; u "1991"; u "soviet union"; u "freedom"]; answer := [] |})
       (lower_basic question) = true
  /\ returns (Lightweight.get_answer lower_basic question)
       Lightweight.qa_system = Ok greeting_response
  /\ returns (Simple.get_answer lower_basic question) Simple.qa_system
     = Ok greeting_response.
Proof.
  intros question.
  assert (Hh : contains (u "history") (lower_basic question) = true)
    by (vm_compute; reflexivity).
  split; [exact Hh|]. split; [vm_compute; reflexivity|].
  exact (proj2 (proj2 (greeting_precedence lower_basic lower_basic_blank
                         Lightweight.qa_system Simple.qa_system question)
                  Hh)).
Defined.

(** C10: the lightweight and the simple variant agree on every question:
    their knowledge bases coincide, and [get_answer] of the one and of the
    other return the same answer string (neither raises). *)
Theorem variants_agree (lower : str -> str) (question : str) :
  Simple.knowledge_base Simple.qa_system
  = Lightweight.knowledge_base Lightweight.qa_system
  /\ exists answer,
       returns (Lightweight.get_answer lower question) Lightweight.qa_system
       = Ok answer
       /\ returns (Simple.get_answer lower question) Simple.qa_system
          = Ok answer.
Proof.
  split; [exact simple_knowledge_base|].
  unfold returns.
  rewrite lightweight_get_answer, simple_get_answer, simple_knowledge_base.
  cbn [fst].
  destruct (answer_of_total lower
              (Lightweight.knowledge_base Lightweight.qa_system) question)
    as [answer ->].
  now exists answer.
Qed.

(** ** Computations that only read *)

Lemma read_only_ret {S A} (a : A) : read_only (@ret S A a).
Proof. intros s. reflexivity. Qed.

Lemma read_only_raise {S A} (e : exn) : read_only (@raise S A e).
Proof. intros s. reflexivity. Qed.

Lemma read_only_read {S A} (field : S -> A) : read_only (read field).
Proof. intros s. reflexivity. Qed.

Lemma read_only_lift {S A} (r : result A) : read_only (@lift S A r).
Proof. intros s. reflexivity. Qed.

Lemma read_only_bind {S A B} (m : M S A) (k : A -> M S B) :
  read_only m -> (forall a, read_only (k a)) -> read_only (bind m k).
Proof.
  intros Hm Hk s. unfold leaves, bind. specialize (Hm s). unfold leaves in Hm.
  destruct (m s) as [[a | e] s']; cbn [snd] in *; subst s'.
  - apply Hk.
  - reflexivity.
Qed.

Lemma read_only_try_except {S A} (body : M S A) (handler : exn -> M S A) :
  read_only body -> (forall e, read_only (handler e)) ->
  read_only (try_except body handler).
Proof.
  intros Hb Hh s. unfold leaves, try_except. specialize (Hb s).
  unfold leaves in Hb.
  destruct (body s) as [[a | e] s']; cbn [snd] in *; subst s'.
  - reflexivity.
  - apply Hh.
Qed.

Lemma read_only_if {S A} (c : bool) (m1 m2 : M S A) :
  read_only m1 -> read_only m2 -> read_only (if c then m1 else m2).
Proof. now destruct c. Qed.

Ltac read_only_step :=
  first
    [ apply read_only_bind; [|intros ?]
    | apply read_only_try_except; [|intros ?]
    | apply read_only_if
    | apply read_only_ret
    | apply read_only_raise
    | apply read_only_read
    | apply read_only_lift ].

Lemma lightweight_find_best_match_read_only lower question :
  read_only (Lightweight.find_best_match lower question).
Proof.
  intros s. unfold leaves. now rewrite lightweight_find_best_match.
Qed.

Lemma lightweight_get_answer_read_only lower question :
  read_only (Lightweight.get_answer lower question).
Proof. intros s. unfold leaves. now rewrite lightweight_get_answer. Qed.

Lemma simple_find_best_match_read_only lower question :
  read_only (Simple.find_best_match lower question).
Proof. intros s. unfold leaves. now rewrite simple_find_best_match. Qed.

Lemma simple_get_answer_read_only lower question :
  read_only (Simple.get_answer lower question).
Proof. intros s. unfold leaves. now rewrite simple_get_answer. Qed.

Lemma lightweight_ask_question_read_only lower posted :
  read_only (Lightweight.ask_question lower posted).
Proof.
  unfold Lightweight.ask_question.
  repeat first [apply lightweight_get_answer_read_only | read_only_step].
Qed.

Lemma lightweight_get_topics_read_only :
  read_only Lightweight.get_topics.
Proof. unfold Lightweight.get_topics. repeat read_only_step. Qed.

Lemma simple_do_GET_read_only path : read_only (Simple.do_GET path).
Proof. unfold Simple.do_GET. repeat read_only_step. Qed.

Lemma simple_do_POST_read_only lower print loads path received :
  read_only (Simple.do_POST lower print loads path received).
Proof.
  unfold Simple.do_POST.
  repeat first [apply simple_get_answer_read_only | read_only_step].
Qed.

(** ** The handlers of [POST /api/ask] *)

(** The question the handlers extract from a posted object. *)
Lemma extract_blank (fields : dict json) :
  blank_question fields = true ->
  exists field question,
    py_get (JObj fields) (u "question") (JStr []) = Ok field
    /\ py_strip field = Ok question /\ is_empty question = true.
Proof.
  unfold blank_question, py_get.
  destruct (lookup (u "question") fields) as [[| | | |s| |]|];
    try discriminate; intros H.
  - exists (JStr s), (strip s). now repeat split.
  - exists (JStr []), []. now repeat split.
Qed.

Lemma extract_asks (fields : dict json) (question : str) :
  asks fields = Some question ->
  exists field,
    py_get (JObj fields) (u "question") (JStr []) = Ok field
    /\ py_strip field = Ok question /\ is_empty question = false.
Proof.
  unfold asks, py_get.
  destruct (lookup (u "question") fields) as [[| | | |s| |]|];
    try discriminate.
  destruct (is_empty (strip s)) eqn:E; [discriminate|].
  intros H. injection H as <-. exists (JStr s). now repeat split.
Qed.

Lemma extract_raises (posted : result json) :
  raises_in_try posted = true ->
  exists e,
    posted = Raise e
    \/ (exists data, posted = Ok data
                     /\ py_get data (u "question") (JStr []) = Raise e)
    \/ (exists data field,
           posted = Ok data
           /\ py_get data (u "question") (JStr []) = Ok field
           /\ py_strip field = Raise e).
Proof.
  destruct posted as [data | e]; [|intros _; exists e; now left].
  destruct data as [| b | n | m x | s | items | fields];
    cbn [raises_in_try];
    try (intros _; eexists; right; left; eexists; split; reflexivity).
  destruct (lookup (u "question") fields) as [field|] eqn:E; [|discriminate].
  destruct field; try discriminate; intros _;
    eexists; right; right; do 2 eexists;
    (split; [reflexivity | split; [unfold py_get; rewrite E|]; reflexivity]).
Qed.

Ltac run_handler :=
  cbv beta iota zeta
    delta [returns Lightweight.ask_question ML.ask_question
             try_except bind lift ret fst snd].

Lemma lightweight_ask_blank lower self (fields : dict json) :
  blank_question fields = true ->
  returns (Lightweight.ask_question lower (Ok (JObj fields))) self
  = Ok (jsonify [(u "error", required_error)] 400).
Proof.
  intros H. destruct (extract_blank fields H) as (f & q & Hf & Hq & He).
  run_handler. rewrite Hf, Hq, He. reflexivity.
Qed.

Lemma ml_ask_blank generate self (fields : dict json) :
  blank_question fields = true ->
  returns (ML.ask_question generate (Ok (JObj fields))) self
  = Ok (jsonify [(u "error", required_error)] 400).
Proof.
  intros H. destruct (extract_blank fields H) as (f & q & Hf & Hq & He).
  run_handler. rewrite Hf, Hq, He. reflexivity.
Qed.

Ltac run_simple Hprint :=
  cbv beta iota zeta
    delta [returns Simple.do_POST try_except bind lift ret fst snd];
  rewrite ?Hprint; cbv beta iota; rewrite ?str_eqb_refl; cbv beta iota;
  rewrite ?Hprint; cbv beta iota.

Lemma simple_ask_blank lower print loads self received
    (fields : dict json) :
  (forall pieces, print pieces = Ok tt) ->
  parsed loads received = Ok (JObj fields) ->
  blank_question fields = true ->
  returns (Simple.do_POST lower print loads (u "/api/ask") received) self
  = Ok (Simple.send_json 200
          [(u "Access-Control-Allow-Origin", u "*");
           (u "Access-Control-Allow-Methods", u "POST, GET, OPTIONS");
           (u "Access-Control-Allow-Headers", u "Content-Type")]
          [(u "error", required_error); (u "success", JBool false)]).
Proof.
  intros Hprint Hp H.
  destruct (extract_blank fields H) as (f & q & Hf & Hq & He).
  destruct received as [text | e]; [|discriminate]. cbn [parsed] in Hp.
  run_simple Hprint. rewrite Hp. cbv beta iota.
  rewrite Hf. cbv beta iota. rewrite Hq. cbv beta iota. rewrite He.
  cbv beta iota. rewrite Hprint. reflexivity.
Qed.

Lemma lightweight_ask_raises lower self (posted : result json) :
  raises_in_try posted = true ->
  returns (Lightweight.ask_question lower posted) self
  = Ok (jsonify [(u "error", processing_error); (u "success", JBool false)]
          500).
Proof.
  intros H.
  destruct (extract_raises posted H)
    as (e & [-> | [(d & -> & Hg) | (d & f & -> & Hg & Hs)]]);
    run_handler; rewrite ?Hg, ?Hs; reflexivity.
Qed.

Lemma ml_ask_raises generate self (posted : result json) :
  raises_in_try posted = true ->
  returns (ML.ask_question generate posted) self
  = Ok (jsonify [(u "error", processing_error); (u "success", JBool false)]
          500).
Proof.
  intros H.
  destruct (extract_raises posted H)
    as (e & [-> | [(d & -> & Hg) | (d & f & -> & Hg & Hs)]]);
    run_handler; rewrite ?Hg, ?Hs; reflexivity.
Qed.

Lemma simple_ask_raises lower print loads self (received : result str) :
  (forall pieces, print pieces = Ok tt) ->
  raises_in_try (parsed loads received) = true ->
  exists e,
    returns (Simple.do_POST lower print loads (u "/api/ask") received) self
    = Ok (Simple.send_json 500 []
            [(u "error", JStr (u "An error occurred: " ++ exn_str e));
             (u "success", JBool false)]).
Proof.
  intros Hprint H.
  destruct received as [text | e0].
  - cbn [parsed] in H.
    destruct (extract_raises (loads text) H)
      as (e & [Hl | [(d & Hl & Hg) | (d & f & Hl & Hg & Hs)]]);
      exists e; run_simple Hprint; rewrite Hl; cbv beta iota;
      rewrite ?Hprint, ?Hg; cbv beta iota; rewrite ?Hprint, ?Hs;
      cbv beta iota; rewrite ?Hprint; reflexivity.
  - exists e0. run_simple Hprint. reflexivity.
Qed.

Lemma lightweight_ask_answers lower self (fields : dict json) question :
  asks fields = Some question ->
  exists reply,
    answer_of lower (Lightweight.knowledge_base self) question = Ok reply
    /\ returns (Lightweight.ask_question lower (Ok (JObj fields))) self
       = Ok (jsonify [(u "question", JStr question);
                      (u "answer", JStr reply);
                      (u "success", JBool true)] 200).
Proof.
  intros H. destruct (extract_asks fields question H) as (f & Hf & Hq & He).
  destruct (answer_of_total lower (Lightweight.knowledge_base self) question)
    as [reply Hr].
  exists reply. split; [exact Hr|].
  run_handler. rewrite Hf, Hq, He, lightweight_get_answer, Hr. reflexivity.
Qed.

Lemma simple_ask_answers lower print loads self received
    (fields : dict json) question :
  (forall pieces, print pieces = Ok tt) ->
  parsed loads received = Ok (JObj fields) ->
  asks fields = Some question ->
  exists reply,
    answer_of lower (Simple.knowledge_base self) question = Ok reply
    /\ returns (Simple.do_POST lower print loads (u "/api/ask") received)
         self
       = Ok (Simple.send_json 200
               [(u "Access-Control-Allow-Origin", u "*");
                (u "Access-Control-Allow-Methods", u "POST, GET, OPTIONS");
                (u "Access-Control-Allow-Headers", u "Content-Type")]
               [(u "question", JStr question);
                (u "answer", JStr reply);
                (u "success", JBool true)]).
Proof.
  intros Hprint Hp H.
  destruct (extract_asks fields question H) as (f & Hf & Hq & He).
  destruct (answer_of_total lower (Simple.knowledge_base self) question)
    as [reply Hr].
  exists reply. split; [exact Hr|].
  destruct received as [text | e]; [|discriminate]. cbn [parsed] in Hp.
  run_simple Hprint. rewrite Hp. cbv beta iota.
  rewrite Hf. cbv beta iota. rewrite Hq. cbv beta iota. rewrite He.
  cbv beta iota. rewrite simple_get_answer, Hr. cbv beta iota.
  rewrite Hprint. reflexivity.
Qed.

(** A print that raises outside the [try] leaves the handler without a
    response; one that raises inside it is answered 500. *)
Lemma simple_first_print_raises lower print loads self path received e :
  print [Text (u "Received POST request to: "); Text path] = Raise e ->
  returns (Simple.do_POST lower print loads path received) self = Raise e.
Proof.
  intros H. unfold returns, Simple.do_POST, bind at 1, lift at 1.
  rewrite H. reflexivity.
Qed.

(** The ML variant answers with what the model generates, and turns an
    exception of the model into the 500 response. *)
Lemma ml_ask_answers generate self (fields : dict json) question :
  asks fields = Some question ->
  ML.model_ready self = true ->
  returns (ML.ask_question generate (Ok (JObj fields))) self
  = Ok (match generate question with
        | Ok reply =>
            jsonify [(u "question", JStr question);
                     (u "answer", JStr reply);
                     (u "success", JBool true)] 200
        | Raise _ =>
            jsonify [(u "error", processing_error);
                     (u "success", JBool false)] 500
        end).
Proof.
  intros H Hready.
  destruct (extract_asks fields question H) as (f & Hf & Hq & He).
  run_handler. rewrite Hf, Hq, He.
  unfold ML.get_answer, bind, read, lift. rewrite Hready. cbn [negb].
  now destruct (generate question).
Qed.

(** The handlers catch every exception: they always produce a response. *)
Lemma try_except_total {S A} (body : M S A) (handler : exn -> M S A) :
  (forall e s, exists r, returns (handler e) s = Ok r) ->
  forall s, exists r, returns (try_except body handler) s = Ok r.
Proof.
  intros Hh s. unfold returns, try_except.
  destruct (body s) as [[a | e] s']; [now exists a | apply Hh].
Qed.

Lemma lightweight_ask_total lower posted self :
  exists r, returns (Lightweight.ask_question lower posted) self = Ok r.
Proof.
  unfold Lightweight.ask_question. apply try_except_total.
  intros e s. now eexists.
Qed.

Lemma ml_ask_total generate posted self :
  exists r, returns (ML.ask_question generate posted) self = Ok r.
Proof.
  unfold ML.ask_question. apply try_except_total.
  intros e s. now eexists.
Qed.


(** C3 (the code at the failing input): a [POST /api/ask] with the body
    [{"question": ""}] is answered by the handler of [simple_start.py],
    on a console that accepts its prints, with the required-field error
    under status 200, where the claim says 400 and where the handlers of
    [app_lightweight.py] and [app.py] answer the same request with 400. *)
Theorem simple_required_error_status :
  let posted := JObj [(u "question", JStr [])] in
  let simple :=
    returns (Simple.do_POST lower_basic console_ok
               (loads_at empty_question_body posted)
               (u "/api/ask") (Ok empty_question_body))
      Simple.qa_system in
  let light :=
    returns (Lightweight.ask_question lower_basic (Ok posted))
      Lightweight.qa_system in
  let ml :=
    returns (ML.ask_question (fun _ : str => Ok (u "Kyiv")) (Ok posted))
      (ML.__init__ (Ok false)) in
  (status_of simple = Some 200%N
   /\ json_of simple
      = Some [(u "error", required_error); (u "success", JBool false)])
  /\ (status_of light = Some 400%N
      /\ json_field (u "error") light = Some required_error)
  /\ (status_of ml = Some 400%N
      /\ json_field (u "error") ml = Some required_error).
Proof.
  cbv zeta. repeat apply conj; vm_compute; reflexivity.
Qed.

(** ** The shape of the responses of [POST /api/ask] *)

(** A successful response has exactly the keys [question], [answer] and
    [success], the last one true, in the three variants. *)
Lemma ask_success_keys lower print loads generate light simple model
    received (fields : dict json) question :
  asks fields = Some question ->
  (json_keys (returns (Lightweight.ask_question lower (Ok (JObj fields)))
                light)
   = Some [u "question"; u "answer"; u "success"]
   /\ json_field (u "success")
        (returns (Lightweight.ask_question lower (Ok (JObj fields))) light)
      = Some (JBool true))
  /\ ((forall pieces, print pieces = Ok tt) ->
      parsed loads received = Ok (JObj fields) ->
      json_keys (returns (Simple.do_POST lower print loads (u "/api/ask")
                            received) simple)
      = Some [u "question"; u "answer"; u "success"]
      /\ json_field (u "success")
           (returns (Simple.do_POST lower print loads (u "/api/ask")
                       received) simple)
         = Some (JBool true))
  /\ (forall reply,
         ML.model_ready model = true -> generate question = Ok reply ->
         json_keys (returns (ML.ask_question generate (Ok (JObj fields)))
                      model)
         = Some [u "question"; u "answer"; u "success"]
         /\ json_field (u "success")
              (returns (ML.ask_question generate (Ok (JObj fields))) model)
            = Some (JBool true)).
Proof.
  intros H. repeat apply conj.
  - destruct (lightweight_ask_answers lower light fields question H)
      as (reply & _ & ->). reflexivity.
  - destruct (lightweight_ask_answers lower light fields question H)
      as (reply & _ & ->). vm_compute. reflexivity.
  - intros Hprint Hp.
    destruct (simple_ask_answers lower print loads simple received fields
                question Hprint Hp H) as (reply & _ & ->).
    split; [reflexivity | vm_compute; reflexivity].
  - intros reply Hready Hgen.
    rewrite (ml_ask_answers generate model fields question H Hready), Hgen.
    split; [reflexivity | vm_compute; reflexivity].
Qed.

(** C4 (the code at the failing input): the Flask handlers answer an empty
    question with status 400 and a body whose only key is [error]; the key
    [success] is absent, where the handler of [simple_start.py] and the
    500 responses of the same functions set it to false. *)
Theorem required_error_lacks_success :
  let posted := Ok (JObj [(u "question", JStr [])]) in
  let generate := fun _ : str => Ok (u "Kyiv") in
  let light :=
    returns (Lightweight.ask_question lower_basic posted)
      Lightweight.qa_system in
  let ml :=
    returns (ML.ask_question generate posted) (ML.__init__ (Ok false)) in
  let simple :=
    returns (Simple.do_POST lower_basic console_ok
               (loads_at empty_question_body (JObj [(u "question", JStr [])]))
               (u "/api/ask") (Ok empty_question_body))
      Simple.qa_system in
  (status_of light = Some 400%N
   /\ json_of light = Some [(u "error", required_error)]
   /\ json_field (u "success") light = None)
  /\ (status_of ml = Some 400%N
      /\ json_of ml = Some [(u "error", required_error)]
      /\ json_field (u "success") ml = None)
  /\ json_field (u "success") simple = Some (JBool false).
Proof.
  cbv zeta. repeat apply conj; vm_compute; reflexivity.
Qed.

(** ** Health and topics *)

(** C7: [GET /api/health] reports readiness.  The lightweight and the
    simple variant answer status 200, [status] healthy and [model_loaded]
    true on every state; in the ML variant [model_loaded] is the model's
    ready flag, which is set once [_initialize_model] has run through
    (whatever API key it found), so that the health check then reports
    true. *)
Theorem health_reports_ready
    (light : Lightweight.LightweightUkrainianQA) (simple : Simple.UkrainianQA)
    (model : ML.UkrainianQAModel) (loaded : result bool) :
  (status_of (returns Lightweight.health_check light) = Some 200%N
   /\ json_field (u "status") (returns Lightweight.health_check light)
      = Some (JStr (u "healthy"))
   /\ json_field (u "model_loaded") (returns Lightweight.health_check light)
      = Some (JBool true))
  /\ (status_of (returns (Simple.do_GET (u "/api/health")) simple)
      = Some 200%N
      /\ json_field (u "status")
           (returns (Simple.do_GET (u "/api/health")) simple)
         = Some (JStr (u "healthy"))
      /\ json_field (u "model_loaded")
           (returns (Simple.do_GET (u "/api/health")) simple)
         = Some (JBool true))
  /\ (status_of (returns ML.health_check model) = Some 200%N
      /\ json_field (u "status") (returns ML.health_check model)
         = Some (JStr (u "healthy"))
      /\ json_field (u "model_loaded") (returns ML.health_check model)
         = Some (JBool (ML.model_ready model))
      /\ returns ML.is_ready model = Ok (ML.model_ready model))
  /\ json_field (u "model_loaded")
       (returns ML.health_check (ML.__init__ loaded))
     = Some (JBool match loaded with Ok _ => true | Raise _ => false end).
Proof.
  repeat apply conj; try (vm_compute; reflexivity).
  destruct loaded; vm_compute; reflexivity.
Qed.

(** C8: [GET /api/topics] of the lightweight and of the simple variant
    returns, with status 200, the list of the topic keys of the knowledge
    base in its order and the length of that list as [count]; for the
    knowledge base of the two files these are the ten topics. *)
Theorem topics_listed
    (light : Lightweight.LightweightUkrainianQA) (simple : Simple.UkrainianQA) :
  (status_of (returns Lightweight.get_topics light) = Some 200%N
   /\ json_of (returns Lightweight.get_topics light)
      = Some [(u "topics",
               JArr (map JStr (keys (Lightweight.knowledge_base light))));
              (u "count",
               JNum (Z.of_nat (List.length
                                 (keys (Lightweight.knowledge_base light)))))])
  /\ (status_of (returns (Simple.do_GET (u "/api/topics")) simple)
      = Some 200%N
      /\ json_of (returns (Simple.do_GET (u "/api/topics")) simple)
         = Some [(u "topics",
                  JArr (map JStr (keys (Simple.knowledge_base simple))));
                 (u "count",
                  JNum (Z.of_nat (List.length
                                    (keys (Simple.knowledge_base simple)))))])
  /\ keys (Lightweight.knowledge_base Lightweight.qa_system)
     = [u "capital"; u "borscht"; u "slava_ukraini"; u "independence";
        u "geography"; u "culture"; u "language"; u "politics"; u "food";
        u "history"]
  /\ keys (Simple.knowledge_base Simple.qa_system)
     = keys (Lightweight.knowledge_base Lightweight.qa_system)
  /\ json_field (u "count")
       (returns Lightweight.get_topics Lightweight.qa_system)
     = Some (JNum 10)
  /\ json_field (u "count")
       (returns (Simple.do_GET (u "/api/topics")) Simple.qa_system)
     = Some (JNum 10).
Proof.
  repeat apply conj; try reflexivity; vm_compute; reflexivity.
Qed.

(** C9: the knowledge base is never mutated after initialisation:
    [find_best_match], [get_answer] and every handler (ask, health, topics,
    any GET or POST of the simple server) leave the object as they found
    it, whatever the object; and the topic keys of the knowledge base are
    pairwise distinct. *)
Theorem knowledge_base_unchanged (lower : str -> str)
    (print : list shown -> result unit) (loads : str -> result json)
    (light : Lightweight.LightweightUkrainianQA) (simple : Simple.UkrainianQA)
    (question path : str) (posted : result json) (received : result str) :
  (leaves (Lightweight.find_best_match lower question) light = light
   /\ leaves (Lightweight.get_answer lower question) light = light
   /\ leaves (Lightweight.ask_question lower posted) light = light
   /\ leaves Lightweight.health_check light = light
   /\ leaves Lightweight.get_topics light = light)
  /\ (leaves (Simple.find_best_match lower question) simple = simple
      /\ leaves (Simple.get_answer lower question) simple = simple
      /\ leaves (Simple.do_POST lower print loads path received) simple
         = simple
      /\ leaves (Simple.do_GET path) simple = simple)
  /\ NoDup (keys (Lightweight.knowledge_base Lightweight.qa_system))
  /\ NoDup (keys (Simple.knowledge_base Simple.qa_system)).
Proof.
  repeat apply conj.
  - apply lightweight_find_best_match_read_only.
  - apply lightweight_get_answer_read_only.
  - apply lightweight_ask_question_read_only.
  - reflexivity.
  - apply lightweight_get_topics_read_only.
  - apply simple_find_best_match_read_only.
  - apply simple_get_answer_read_only.
  - apply simple_do_POST_read_only.
  - apply simple_do_GET_read_only.
  - exact knowledge_base_keys_distinct.
  - rewrite simple_knowledge_base. exact knowledge_base_keys_distinct.
Qed.

(** * Further properties of the keyword matcher *)

Lemma lookup_some_in {V} (key : str) (v : V) (d : dict V) :
  lookup key d = Some v -> In (key, v) d.
Proof.
  induction d as [|[k w] d IH]; simpl; [discriminate|].
  destruct (str_eqb k key) eqn:E.
  - intros H. injection H as ->. apply str_eqb_eq in E. subst k. now left.
  - intros H. right. now apply IH.
Qed.

Lemma strip_empty_eq (s : str) : is_empty (strip s) = forallb isspace s.
Proof.
  destruct (is_empty (strip s)) eqn:E.
  - symmetry. now apply strip_empty_iff.
  - destruct (forallb isspace s) eqn:F; [|reflexivity].
    apply strip_empty_iff in F. congruence.
Qed.

Lemma lstrip_split (s : str) :
  exists spaces, s = spaces ++ lstrip s.
Proof.
  induction s as [|c s [spaces IH]]; simpl.
  - now exists [].
  - destruct (isspace c).
    + exists (c :: spaces). simpl. now f_equal.
    + now exists [].
Qed.

(** A stripped string starts with no white space. *)
Lemma strip_head (s : str) c t : strip s = c :: t -> isspace c = false.
Proof.
  unfold strip, rstrip. intros H.
  destruct (lstrip_split (rev (lstrip s))) as [spaces Hs].
  apply (f_equal (@rev N)) in Hs.
  rewrite rev_involutive, rev_app_distr, H in Hs. simpl in Hs.
  now apply lstrip_cons in Hs.
Qed.

(** Stripping what was stripped finds it non-empty again. *)
Lemma strip_strip_empty (s : str) :
  is_empty (strip s) = false -> is_empty (strip (strip s)) = false.
Proof.
  intros H. rewrite strip_empty_eq.
  destruct (strip s) as [|c t] eqn:E; [discriminate|].
  simpl. now rewrite (strip_head s c t E).
Qed.

Lemma answer_of_closed lower kb question :
  exists reply,
    answer_of lower kb question = Ok reply
    /\ (reply = blank_response \/ reply = greeting_response
        \/ reply = thanks_response \/ reply = fallback_message
        \/ exists topic data, In (topic, data) kb /\ reply = answer data).
Proof.
  assert (Hfall : exists reply,
             Ok fallback_message = Ok reply
             /\ (reply = blank_response \/ reply = greeting_response
                 \/ reply = thanks_response \/ reply = fallback_message
                 \/ exists topic data,
                      In (topic, data) kb /\ reply = answer data)).
  { exists fallback_message. split; [reflexivity|].
    right. right. right. left. reflexivity. }
  unfold answer_of.
  destruct (is_empty (strip question)).
  { exists blank_response. split; [reflexivity|]. left. reflexivity. }
  destruct (mentions greeting_words _).
  { exists greeting_response. split; [reflexivity|].
    right. left. reflexivity. }
  destruct (mentions thanks_words _).
  { exists thanks_response. split; [reflexivity|].
    right. right. left. reflexivity. }
  cbv zeta.
  destruct (scan_topics_invariant (lower question) kb) as [_ Hbest].
  destruct (Lightweight.scan_topics (lower question) kb) as [bm bs].
  cbn [fst snd] in *.
  destruct (0 <? bs); [|exact Hfall].
  destruct Hbest as [[_ ->] | (_ & t & d & -> & Hin & _)]; [exact Hfall|].
  destruct (is_empty t); [exact Hfall|].
  destruct (lookup_in t d kb Hin) as [d' Hd']. rewrite Hd'.
  exists (answer d'). split; [reflexivity|].
  do 4 right. exists t, d'. split; [|reflexivity].
  now apply lookup_some_in.
Qed.

(** X1: on every object and every question [get_answer] returns without
    raising (the [KeyError] of the dictionary access cannot occur), and
    what it returns is the request to ask a question, the greeting, the
    thanks reply, the fallback message or the answer of an entry of the
    knowledge base; in both files. *)
Theorem get_answer_closed (lower : str -> str)
    (light : Lightweight.LightweightUkrainianQA) (simple : Simple.UkrainianQA)
    (question : str) :
  (exists reply,
      returns (Lightweight.get_answer lower question) light = Ok reply
      /\ (reply = blank_response \/ reply = greeting_response
          \/ reply = thanks_response \/ reply = fallback_message
          \/ exists topic data,
               In (topic, data) (Lightweight.knowledge_base light)
               /\ reply = answer data))
  /\ (exists reply,
         returns (Simple.get_answer lower question) simple = Ok reply
         /\ (reply = blank_response \/ reply = greeting_response
             \/ reply = thanks_response \/ reply = fallback_message
             \/ exists topic data,
                  In (topic, data) (Simple.knowledge_base simple)
                  /\ reply = answer data)).
Proof.
  unfold returns. rewrite lightweight_get_answer, simple_get_answer.
  cbn [fst]. split; apply answer_of_closed.
Qed.

Lemma thanks_words_plain :
  forallb (fun w => negb (forallb isspace w)) thanks_words = true.
Proof. vm_compute. reflexivity. Qed.

(** X2: the thanks check comes before topic matching.  A question whose
    lower-cased form contains "thank", "дякую" or "thanks" and no greeting
    word is answered with the thanks reply, whatever the knowledge base
    holds and whatever keywords the question contains. *)
Theorem thanks_precedence (lower : str -> str)
    (lower_blank : forall s, forallb isspace s = true -> lower s = s)
    (light : Lightweight.LightweightUkrainianQA) (simple : Simple.UkrainianQA)
    (question : str) :
  mentions greeting_words (lower question) = false ->
  mentions thanks_words (lower question) = true ->
  returns (Lightweight.get_answer lower question) light = Ok thanks_response
  /\ returns (Simple.get_answer lower question) simple = Ok thanks_response.
Proof.
  intros Hg Ht.
  assert (H : forall kb, answer_of lower kb question = Ok thanks_response).
  { intros kb. unfold answer_of.
    destruct (is_empty (strip question)) eqn:E.
    - apply strip_empty_iff in E. rewrite (lower_blank _ E) in Ht.
      rewrite (mentions_blank _ _ E thanks_words_plain) in Ht.
      discriminate Ht.
    - rewrite Hg, Ht. reflexivity. }
  unfold returns. rewrite lightweight_get_answer, simple_get_answer.
  cbn [fst]. split; apply H.
Qed.

Lemma thanks_precedence_witness :
  let question := u "Thanks for the borscht soup" in
  mentions (keywords {| keywords := [u "borscht"; u "borsch"; u "soup"; u "traditional food"]; answer := [] |})
    (lower_basic question) = true
  /\ returns (Lightweight.get_answer lower_basic question)
       Lightweight.qa_system = Ok thanks_response
  /\ returns (Simple.get_answer lower_basic question) Simple.qa_system
     = Ok thanks_response.
Proof.
  intros question. split; [vm_compute; reflexivity|].
  apply (thanks_precedence lower_basic lower_basic_blank
           Lightweight.qa_system Simple.qa_system question);
    vm_compute; reflexivity.
Defined.

(** X3: ties go to the topic listed first.  When an entry of the knowledge
    base has positive keyword overlap, more than every entry before it and
    at least as much as every entry after it, [find_best_match] returns
    its topic. *)
Theorem find_best_match_first (lower : str -> str)
    (topic : str) (data : entry) (earlier later : dict entry)
    (question : str) :
  0 < keyword_overlap (lower question) data ->
  first_best (lower question) data earlier later = true ->
  returns (Lightweight.find_best_match lower question)
    {| Lightweight.knowledge_base := earlier ++ (topic, data) :: later |}
  = Ok (Some topic)
  /\ returns (Simple.find_best_match lower question)
       {| Simple.knowledge_base := earlier ++ (topic, data) :: later |}
     = Ok (Some topic).
Proof.
  intros Hpos Hbest. unfold returns.
  rewrite lightweight_find_best_match, simple_find_best_match.
  cbn [fst Lightweight.knowledge_base Simple.knowledge_base].
  rewrite (scan_first_best _ topic data earlier later Hbest Hpos).
  cbn [fst snd].
  destruct (Nat.ltb_spec 0 (keyword_overlap (lower question) data)); [|lia].
  now split.
Qed.

Lemma find_best_match_first_witness :
  let question := u "Traditional food" in
  returns (Lightweight.find_best_match lower_basic question)
    Lightweight.qa_system = Ok (Some (u "borscht"))
  /\ returns (Simple.find_best_match lower_basic question)
       Simple.qa_system = Ok (Some (u "borscht")).
Proof.
  intros question.
  pose proof (find_best_match_first lower_basic (u "borscht")
                {| keywords := [u "borscht"; u "borsch"; u "soup"; u "traditional food"];
                   answer := u "Borscht is a famous Ukrainian beet soup that's considered a national dish. It's made with beets, cabbage, potatoes, and often includes meat. The soup has a distinctive red color and is served with sour cream and fresh dill." |}
                (firstn 1 (Lightweight.knowledge_base Lightweight.qa_system))
                (skipn 2 (Lightweight.knowledge_base Lightweight.qa_system))
                question) as H.
  apply H.
  - vm_compute. lia.
  - vm_compute. reflexivity.
Defined.

Ltac split_comparisons :=
  repeat match goal with
         | |- context [(?a <=? ?b)%N] =>
             destruct (N.leb_spec a b); try (exfalso; lia)
         | |- context [(?a =? ?b)%N] =>
             destruct (N.eqb_spec a b); try (exfalso; lia)
         end.

Lemma lower_cp_idempotent (c : N) : lower_cp (lower_cp c) = lower_cp c.
Proof.
  assert (Hfix : forall d,
             (d < 65 \/ 90 < d)%N -> (d < 1024 \/ 1071 < d)%N ->
             d <> 1168%N -> lower_cp d = d).
  { intros d H1 H2 H3. unfold lower_cp. split_comparisons; reflexivity. }
  assert (Hrange : ((lower_cp c < 65 \/ 90 < lower_cp c)
                    /\ (lower_cp c < 1024 \/ 1071 < lower_cp c)
                    /\ lower_cp c <> 1168)%N).
  { unfold lower_cp. split_comparisons; cbn [andb]; lia. }
  destruct Hrange as (H1 & H2 & H3). now apply Hfix.
Qed.

Lemma isspace_lower_cp (c : N) : isspace (lower_cp c) = isspace c.
Proof.
  destruct (isspace c) eqn:E.
  - now rewrite (lower_cp_space c E).
  - assert (Hns : forall d,
               (32 < d)%N -> d <> 133%N -> d <> 160%N -> (d < 5760)%N ->
               isspace d = false).
    { intros d H1 H2 H3 H4. unfold isspace.
      split_comparisons; reflexivity. }
    assert (Hc : lower_cp c = c
                 \/ (32 < lower_cp c /\ lower_cp c <> 133
                     /\ lower_cp c <> 160 /\ lower_cp c < 5760)%N).
    { unfold lower_cp. split_comparisons; cbn [andb]; lia. }
    destruct Hc as [-> | (H1 & H2 & H3 & H4)]; [exact E | now apply Hns].
Qed.

Lemma lower_basic_idempotent (s : str) :
  lower_basic (lower_basic s) = lower_basic s.
Proof.
  unfold lower_basic. rewrite map_map.
  apply map_ext. exact lower_cp_idempotent.
Qed.

Lemma lower_basic_space (s : str) :
  forallb isspace (lower_basic s) = forallb isspace s.
Proof.
  induction s as [|c s IH]; simpl; [reflexivity|].
  now rewrite isspace_lower_cp, IH.
Qed.

(** X4: [get_answer] ignores letter case: a question and its lower-cased
    form are answered alike, on every object, in both files.  (Lower-casing
    twice is lower-casing once, and a string is white space exactly when
    its lower-cased form is, as for [str.lower].) *)
Theorem get_answer_ignores_case (lower : str -> str)
    (lower_idempotent : forall s, lower (lower s) = lower s)
    (lower_space :
       forall s, forallb isspace (lower s) = forallb isspace s)
    (light : Lightweight.LightweightUkrainianQA) (simple : Simple.UkrainianQA)
    (question : str) :
  returns (Lightweight.get_answer lower (lower question)) light
  = returns (Lightweight.get_answer lower question) light
  /\ returns (Simple.get_answer lower (lower question)) simple
     = returns (Simple.get_answer lower question) simple.
Proof.
  assert (H : forall kb,
             answer_of lower kb (lower question)
             = answer_of lower kb question).
  { intros kb. unfold answer_of.
    now rewrite !strip_empty_eq, lower_space, lower_idempotent. }
  unfold returns. rewrite !lightweight_get_answer, !simple_get_answer.
  cbn [fst]. split; apply H.
Qed.

Lemma get_answer_ignores_case_witness :
  let question := u "Where is KYIV?" in
  lower_basic question = u "where is kyiv?"
  /\ returns (Lightweight.get_answer lower_basic (u "where is kyiv?"))
       Lightweight.qa_system
     = returns (Lightweight.get_answer lower_basic question)
         Lightweight.qa_system
  /\ returns (Simple.get_answer lower_basic (u "where is kyiv?"))
       Simple.qa_system
     = returns (Simple.get_answer lower_basic question) Simple.qa_system.
Proof.
  intros question.
  assert (E : lower_basic question = u "where is kyiv?")
    by (vm_compute; reflexivity).
  split; [exact E|]. rewrite <- E.
  exact (get_answer_ignores_case lower_basic lower_basic_idempotent
           lower_basic_space Lightweight.qa_system Simple.qa_system
           question).
Defined.

(** ** Further properties of the handlers *)

Lemma request_cases (posted : result json) :
  raises_in_try posted = true
  \/ exists fields,
       posted = Ok (JObj fields)
       /\ (blank_question fields = true
           \/ exists question, asks fields = Some question).
Proof.
  destruct posted as [data | e]; [|now left].
  destruct data as [| b | n | m x | s | items | fields];
    try (now left).
  cbn [raises_in_try].
  destruct (lookup (u "question") fields) as [[| | | |s| |]|] eqn:E;
    try (now left); right; exists fields; (split; [reflexivity|]);
    unfold blank_question, asks; rewrite E.
  - destruct (is_empty (strip s)); [now left | right; now eexists].
  - now left.
Qed.

Lemma flask_status_blank (fields : dict json) :
  blank_question fields = true -> flask_status (Ok (JObj fields)) = 400%N.
Proof.
  unfold blank_question, flask_status.
  destruct (lookup (u "question") fields) as [[| | | |s| |]|];
    try discriminate; [|reflexivity].
  now intros ->.
Qed.

Lemma flask_status_asks (fields : dict json) question :
  asks fields = Some question -> flask_status (Ok (JObj fields)) = 200%N.
Proof.
  unfold asks, flask_status.
  destruct (lookup (u "question") fields) as [[| | | |s| |]|];
    try discriminate.
  now destruct (is_empty (strip s)).
Qed.

Lemma flask_status_raises (posted : result json) :
  raises_in_try posted = true -> flask_status posted = 500%N.
Proof.
  destruct posted as [data | e]; [|reflexivity].
  destruct data as [| b | n | m x | s | items | fields]; try reflexivity.
  cbn [raises_in_try flask_status].
  destruct (lookup (u "question") fields) as [[| | | |s| |]|];
    try discriminate; reflexivity.
Qed.

(** X5: the status of [POST /api/ask], read off the request, for every
    object and every request.  [app_lightweight.py] answers 200 exactly to
    an object whose question is a string with a character that is no white
    space, 400 to an object whose question is missing or a string of white
    space, and 500 to everything else.  [simple_start.py], on a console
    that accepts its prints, answers 500 where the lightweight handler
    would (taking what it parsed for the request) and 200 otherwise, and
    sets [success] to true exactly where the lightweight handler answers
    200; and when its first print raises, it raises that exception and
    answers nothing. *)
Theorem ask_status_by_request (lower : str -> str)
    (print : list shown -> result unit) (loads : str -> result json)
    (light : Lightweight.LightweightUkrainianQA) (simple : Simple.UkrainianQA)
    (posted : result json) (received : result str) (path : str) :
  status_of (returns (Lightweight.ask_question lower posted) light)
  = Some (flask_status posted)
  /\ ((forall pieces, print pieces = Ok tt) ->
      status_of (returns (Simple.do_POST lower print loads (u "/api/ask")
                            received) simple)
      = Some (if (flask_status (parsed loads received) =? 500)%N
              then 500%N else 200%N)
      /\ json_field (u "success")
           (returns (Simple.do_POST lower print loads (u "/api/ask")
                       received) simple)
         = Some (JBool (flask_status (parsed loads received) =? 200)%N))
  /\ (forall e,
         print [Text (u "Received POST request to: "); Text path] = Raise e ->
         returns (Simple.do_POST lower print loads path received) simple
         = Raise e).
Proof.
  split; [|split].
  - destruct (request_cases posted)
      as [Hr | (fields & -> & [Hb | [question Ha]])].
    + rewrite (lightweight_ask_raises lower light posted Hr).
      now rewrite (flask_status_raises posted Hr).
    + rewrite (lightweight_ask_blank lower light fields Hb).
      now rewrite (flask_status_blank fields Hb).
    + destruct (lightweight_ask_answers lower light fields question Ha)
        as (r1 & _ & ->).
      now rewrite (flask_status_asks fields question Ha).
  - intros Hprint.
    destruct (request_cases (parsed loads received))
      as [Hr | (fields & Hp & [Hb | [question Ha]])].
    + destruct (simple_ask_raises lower print loads simple received
                  Hprint Hr) as [e ->].
      rewrite (flask_status_raises _ Hr).
      split; vm_compute; reflexivity.
    + rewrite (simple_ask_blank lower print loads simple received fields
                 Hprint Hp Hb).
      rewrite Hp, (flask_status_blank fields Hb).
      split; vm_compute; reflexivity.
    + destruct (simple_ask_answers lower print loads simple received
                  fields question Hprint Hp Ha) as (r2 & _ & ->).
      rewrite Hp, (flask_status_asks fields question Ha).
      split; vm_compute; reflexivity.
  - intros e. apply simple_first_print_raises.
Qed.

Lemma ask_status_by_request_witness :
  let received := Ok empty_question_body in
  let loads := loads_at empty_question_body (JObj [(u "question", JStr [])]) in
  status_of (returns (Simple.do_POST lower_basic console_ok loads
                        (u "/api/ask") received) Simple.qa_system)
  = Some 200%N
  /\ json_field (u "success")
       (returns (Simple.do_POST lower_basic console_ok loads
                   (u "/api/ask") received) Simple.qa_system)
     = Some (JBool false).
Proof.
  intros received loads.
  exact (proj1 (proj2 (ask_status_by_request lower_basic console_ok loads
                         Lightweight.qa_system Simple.qa_system
                         (Ok JNull) received (u "/api/ask")))
           (fun _ => eq_refl)).
Defined.

Lemma asks_not_blank (fields : dict json) question :
  asks fields = Some question -> is_empty (strip question) = false.
Proof.
  unfold asks.
  destruct (lookup (u "question") fields) as [[| | | |s| |]|];
    try discriminate.
  destruct (is_empty (strip s)) eqn:E; [discriminate|].
  intros H. injection H as <-. now apply strip_strip_empty.
Qed.

Lemma canned_answers_not_blank :
  forallb (fun item => negb (str_eqb (answer (snd item)) blank_response))
    (Lightweight.knowledge_base Lightweight.qa_system) = true.
Proof. vm_compute. reflexivity. Qed.

Lemma answer_of_not_blank lower question reply :
  is_empty (strip question) = false ->
  answer_of lower (Lightweight.knowledge_base Lightweight.qa_system) question
  = Ok reply ->
  reply <> blank_response.
Proof.
  intros Hs Hr.
  destruct (answer_of_closed lower
              (Lightweight.knowledge_base Lightweight.qa_system) question)
    as (r & Hr' & Hcases).
  rewrite Hr in Hr'. injection Hr' as <-.
  destruct Hcases as [-> | [-> | [-> | [-> | (t & d & Hin & ->)]]]].
  - exfalso. unfold answer_of in Hr. rewrite Hs in Hr.
    destruct (mentions greeting_words _);
      [injection Hr as Hr; revert Hr; vm_compute; discriminate|].
    destruct (mentions thanks_words _);
      [injection Hr as Hr; revert Hr; vm_compute; discriminate|].
    cbv zeta in Hr.
    destruct (scan_topics_invariant (lower question)
                (Lightweight.knowledge_base Lightweight.qa_system))
      as [_ Hbest].
    destruct (Lightweight.scan_topics _ _) as [bm bs]. cbn [fst snd] in *.
    assert (Hfb : Ok fallback_message = Ok blank_response -> False)
      by (vm_compute; discriminate).
    destruct (0 <? bs); [|now apply Hfb].
    destruct Hbest as [[_ ->] | (_ & t & d & -> & Hin & _)];
      [now apply Hfb|].
    destruct (is_empty t); [now apply Hfb|].
    destruct (lookup t _) as [d'|] eqn:El; [|discriminate].
    apply lookup_some_in in El. injection Hr as Hr.
    pose proof canned_answers_not_blank as Hall.
    rewrite forallb_forall in Hall. specialize (Hall _ El). cbn [snd] in Hall.
    rewrite Hr, str_eqb_refl in Hall. discriminate Hall.
  - vm_compute. discriminate.
  - vm_compute. discriminate.
  - vm_compute. discriminate.
  - pose proof canned_answers_not_blank as Hall.
    rewrite forallb_forall in Hall. specialize (Hall _ Hin). cbn [snd] in Hall.
    intros E. rewrite E, str_eqb_refl in Hall. discriminate Hall.
Qed.

(** X6: what a successful [POST /api/ask] carries.  For an object whose
    question is a string with a character that is no white space, the
    response echoes the question stripped of surrounding white space and
    carries what [get_answer] returns for the stripped question; that
    answer is never the "Please ask a question" reply, whose guard in
    [get_answer] the handlers make unreachable.  In [app_lightweight.py],
    and in [simple_start.py] when the console accepts its prints and the
    object is what it parsed. *)
Theorem ask_answers_stripped (lower : str -> str)
    (print : list shown -> result unit) (loads : str -> result json)
    (received : result str) (fields : dict json) (question : str) :
  asks fields = Some question ->
  exists reply,
    returns (Lightweight.get_answer lower question) Lightweight.qa_system
    = Ok reply
    /\ returns (Simple.get_answer lower question) Simple.qa_system = Ok reply
    /\ reply <> blank_response
    /\ json_of (returns (Lightweight.ask_question lower (Ok (JObj fields)))
                  Lightweight.qa_system)
       = Some [(u "question", JStr question); (u "answer", JStr reply);
               (u "success", JBool true)]
    /\ ((forall pieces, print pieces = Ok tt) ->
        parsed loads received = Ok (JObj fields) ->
        json_of (returns (Simple.do_POST lower print loads (u "/api/ask")
                            received) Simple.qa_system)
        = Some [(u "question", JStr question); (u "answer", JStr reply);
                (u "success", JBool true)]).
Proof.
  intros Ha.
  destruct (lightweight_ask_answers lower Lightweight.qa_system fields
              question Ha) as (reply & Hr & Hl).
  exists reply. unfold returns at 1 2.
  rewrite lightweight_get_answer, simple_get_answer, simple_knowledge_base.
  cbn [fst]. rewrite Hl.
  repeat apply conj; try assumption; try reflexivity.
  - exact (answer_of_not_blank lower question reply
             (asks_not_blank fields question Ha) Hr).
  - intros Hprint Hp.
    destruct (simple_ask_answers lower print loads Simple.qa_system received
                fields question Hprint Hp Ha) as (reply' & Hr' & ->).
    rewrite simple_knowledge_base, Hr in Hr'. injection Hr' as <-.
    reflexivity.
Qed.

Lemma ask_answers_stripped_witness :
  let fields := [(u "question", JStr (u "  What is borscht?  "))] in
  let text := u "(the request body)" in
  exists reply,
    returns (Lightweight.get_answer lower_basic (u "What is borscht?"))
      Lightweight.qa_system = Ok reply
    /\ json_of (returns (Lightweight.ask_question lower_basic
                           (Ok (JObj fields))) Lightweight.qa_system)
       = Some [(u "question", JStr (u "What is borscht?"));
               (u "answer", JStr reply); (u "success", JBool true)]
    /\ json_of (returns (Simple.do_POST lower_basic console_ok
                           (loads_at text (JObj fields)) (u "/api/ask")
                           (Ok text)) Simple.qa_system)
       = Some [(u "question", JStr (u "What is borscht?"));
               (u "answer", JStr reply); (u "success", JBool true)].
Proof.
  intros fields text.
  destruct (ask_answers_stripped lower_basic console_ok
              (loads_at text (JObj fields)) (Ok text) fields
              (u "What is borscht?"))
    as (reply & H1 & _ & _ & H4 & H5).
  - vm_compute. reflexivity.
  - exists reply. split; [exact H1|]. split; [exact H4|].
    apply H5; [intros pieces; reflexivity | vm_compute; reflexivity].
Defined.

(** * The model of [ukrainian_qa_model.py] *)

(** ** [_build_knowledge_base] *)

Lemma set_knowledge_base_same (self : Model.UkrainianQAModel) :
  Model.set_knowledge_base (Model.knowledge_base self) self = self.
Proof. now destruct self. Qed.

Lemma set_knowledge_base_twice kb1 kb2 (self : Model.UkrainianQAModel) :
  Model.set_knowledge_base kb2 (Model.set_knowledge_base kb1 self)
  = Model.set_knowledge_base kb2 self.
Proof. reflexivity. Qed.

Lemma for_each_append {A} (make : A -> Model.kb_entry) (items : list A)
    (self : Model.UkrainianQAModel) :
  for_each items (fun x => Model.append_entry (make x)) self
  = (Ok tt,
     Model.set_knowledge_base
       (Model.knowledge_base self ++ map make items) self).
Proof.
  revert self; induction items as [|x items IH]; intros self.
  - cbn [for_each map]. rewrite app_nil_r, set_knowledge_base_same.
    reflexivity.
  - cbn [for_each map]. unfold bind at 1.
    unfold Model.append_entry at 1, modify. rewrite IH.
    cbn [Model.knowledge_base Model.set_knowledge_base].
    now rewrite <- app_assoc.
Qed.

Lemma for_each_category (items : dict (list str))
    (self : Model.UkrainianQAModel) :
  for_each items
    (fun item =>
       let '(cat, facts) := item in
       for_each facts
         (fun fact =>
            Model.append_entry
              {| Model.text := fact;
                 Model.category := cat;
                 Model.source := u "ukrainian_knowledge_base" |})) self
  = (Ok tt,
     Model.set_knowledge_base
       (Model.knowledge_base self ++ fact_entries items) self).
Proof.
  revert self; induction items as [|[cat facts] items IH]; intros self.
  - cbn [for_each fact_entries flat_map].
    rewrite app_nil_r, set_knowledge_base_same. reflexivity.
  - cbn [for_each fact_entries flat_map fst snd]. unfold bind at 1.
    rewrite (for_each_append
               (fun fact =>
                  {| Model.text := fact;
                     Model.category := cat;
                     Model.source := u "ukrainian_knowledge_base" |})).
    rewrite IH. cbn [Model.knowledge_base Model.set_knowledge_base].
    now rewrite <- app_assoc.
Qed.

Lemma build_knowledge_base_run (self : Model.UkrainianQAModel) :
  Model._build_knowledge_base self
  = (Ok tt,
     Model.set_knowledge_base
       (fact_entries (Model.ukrainian_knowledge self) ++ phrase_entries)
       self).
Proof.
  unfold Model._build_knowledge_base, bind at 1 2, modify, read.
  cbn [Model.ukrainian_knowledge Model.set_knowledge_base].
  unfold bind at 1. rewrite for_each_category.
  rewrite (for_each_append
             (fun phrase =>
                {| Model.text := phrase;
                   Model.category := u "language";
                   Model.source := u "ukrainian_phrases" |})).
  reflexivity.
Qed.

(** X7: [_build_knowledge_base] discards whatever the knowledge base held
    and leaves one entry per fact of [ukrainian_knowledge], category by
    category in order, followed by the seven phrase entries of category
    language; it touches no other attribute, never raises, and running it
    again changes nothing. *)
Theorem build_knowledge_base_rebuilds (self : Model.UkrainianQAModel) :
  returns Model._build_knowledge_base self = Ok tt
  /\ leaves Model._build_knowledge_base self
     = Model.set_knowledge_base
         (fact_entries (Model.ukrainian_knowledge self) ++ phrase_entries)
         self
  /\ List.length (Model.knowledge_base
                    (leaves Model._build_knowledge_base self))
     = List.length (List.concat (map snd (Model.ukrainian_knowledge self))) + 7
  /\ leaves Model._build_knowledge_base
       (leaves Model._build_knowledge_base self)
     = leaves Model._build_knowledge_base self.
Proof.
  unfold returns, leaves. rewrite !build_knowledge_base_run. cbn [fst snd].
  repeat apply conj; try reflexivity.
  cbn [Model.knowledge_base Model.set_knowledge_base].
  rewrite length_app. f_equal.
  unfold fact_entries.
  induction (Model.ukrainian_knowledge self) as [|[cat facts] items IH];
    [reflexivity|].
  cbn [flat_map map List.concat snd]. now rewrite !length_app, length_map, IH.
Qed.

(** ** [get_knowledge_stats] *)

Lemma lookup_dict_set {V} (key key' : str) (v : V) (d : dict V) :
  lookup key' (dict_set key v d)
  = if str_eqb key key' then Some v else lookup key' d.
Proof.
  induction d as [|[k w] d IH]; cbn [dict_set lookup]; [reflexivity|].
  destruct (str_eqb k key) eqn:E; cbn [lookup].
  - apply str_eqb_eq in E. subst k. now destruct (str_eqb key key').
  - rewrite IH. destruct (str_eqb k key') eqn:E'; [|reflexivity].
    apply str_eqb_eq in E'. subst k.
    destruct (str_eqb key key') eqn:E2; [|reflexivity].
    apply str_eqb_eq in E2. subst key'.
    rewrite str_eqb_refl in E. discriminate E.
Qed.

Lemma in_keys_dict_set {V} (key key' : str) (v : V) (d : dict V) :
  In key' (keys (dict_set key v d)) -> key' = key \/ In key' (keys d).
Proof.
  induction d as [|[k w] d IH]; cbn [dict_set keys map fst In].
  - intros [-> | []]. now left.
  - destruct (str_eqb k key) eqn:E; cbn [keys map fst In].
    + tauto.
    + intros [-> | H]; [tauto|]. destruct (IH H); tauto.
Qed.

Lemma nodup_keys_dict_set {V} (key : str) (v : V) (d : dict V) :
  NoDup (keys d) -> NoDup (keys (dict_set key v d)).
Proof.
  induction d as [|[k w] d IH]; cbn [dict_set keys map fst]; intros H.
  - constructor; [intros [] | constructor].
  - inversion H as [|? ? Hk Hd]; subst.
    destruct (str_eqb k key) eqn:E; cbn [keys map fst].
    + now constructor.
    + constructor; [|now apply IH].
      intros Hin. apply in_keys_dict_set in Hin as [-> | Hin].
      * now rewrite str_eqb_refl in E.
      * now apply Hk.
Qed.

Lemma total_count_dict_set (key : str) (c : nat) (d : dict nat) :
  total_count (dict_set key (get_default key 0 d + c) d)
  = total_count d + c.
Proof.
  unfold get_default.
  induction d as [|[k w] d IH];
    cbn [dict_set lookup total_count fold_right snd]; [lia|].
  destruct (str_eqb k key); cbn [total_count fold_right snd].
  - lia.
  - fold (total_count (dict_set key
                         (match lookup key d with
                          | Some v => v | None => 0 end + c) d)).
    fold (total_count d). rewrite IH. lia.
Qed.

Lemma entries_in_app (cat : str) (kb : list Model.kb_entry) e :
  entries_in cat (kb ++ [e])
  = entries_in cat kb + (if str_eqb (Model.category e) cat then 1 else 0).
Proof.
  unfold entries_in. rewrite filter_app, length_app. cbn [filter].
  now destruct (str_eqb (Model.category e) cat).
Qed.

Lemma in_keys_dict_set_iff {V} (key key' : str) (v : V) (d : dict V) :
  In key' (keys (dict_set key v d)) <-> key' = key \/ In key' (keys d).
Proof.
  split; [apply in_keys_dict_set|].
  induction d as [|[k w] d IH]; cbn [dict_set keys map fst In].
  - intros [-> | []]. now left.
  - destruct (str_eqb k key) eqn:E; cbn [keys map fst In].
    + apply str_eqb_eq in E. subst k. intros [-> | [-> | H]]; tauto.
    + intros [-> | [-> | H]].
      * right. apply IH. now left.
      * now left.
      * right. apply IH. now right.
Qed.

Lemma lookup_in_nodup {V} (key : str) (v : V) (d : dict V) :
  NoDup (keys d) -> In (key, v) d -> lookup key d = Some v.
Proof.
  induction d as [|[k w] d IH]; cbn [keys map fst lookup In];
    [contradiction|].
  intros Hnd [H | H]; inversion Hnd as [|? ? Hk Hd]; subst.
  - injection H as -> ->. now rewrite str_eqb_refl.
  - destruct (str_eqb k key) eqn:E; [|now apply IH].
    apply str_eqb_eq in E. subst k. exfalso. apply Hk.
    apply in_map_iff. now exists (key, v).
Qed.

Lemma entries_in_positive (cat : str) (kb : list Model.kb_entry) e :
  In e kb -> Model.category e = cat -> 0 < entries_in cat kb.
Proof.
  intros Hin Hc. unfold entries_in.
  assert (H : In e (filter (fun e => str_eqb (Model.category e) cat) kb)).
  { apply filter_In. split; [exact Hin|]. rewrite Hc. apply str_eqb_refl. }
  destruct (filter _ kb); [contradiction | cbn; lia].
Qed.

Lemma count_categories_from (kb seen : list Model.kb_entry)
    (counts : dict nat) :
  NoDup (keys counts) ->
  total_count counts = List.length seen ->
  (forall cat, get_default cat 0 counts = entries_in cat seen) ->
  (forall cat, In cat (keys counts)
               <-> exists e, In e seen /\ Model.category e = cat) ->
  let final :=
    fold_left
      (fun counts e =>
         let cat := Model.category e in
         dict_set cat (get_default cat 0 counts + 1) counts)
      kb counts in
  NoDup (keys final)
  /\ total_count final = List.length (seen ++ kb)
  /\ (forall cat, get_default cat 0 final = entries_in cat (seen ++ kb))
  /\ (forall cat, In cat (keys final)
                  <-> exists e, In e (seen ++ kb) /\ Model.category e = cat).
Proof.
  revert seen counts; induction kb as [|e kb IH];
    intros seen counts Hnd Htot Hcount Hkeys; cbn [fold_left].
  - rewrite app_nil_r. cbv zeta.
    split; [exact Hnd | split; [exact Htot | split; [exact Hcount|]]].
    exact Hkeys.
  - replace (seen ++ e :: kb) with ((seen ++ [e]) ++ kb)
      by now rewrite <- app_assoc.
    apply IH.
    + now apply nodup_keys_dict_set.
    + rewrite total_count_dict_set, length_app, Htot. reflexivity.
    + intros cat. rewrite entries_in_app. unfold get_default at 1.
      rewrite lookup_dict_set.
      destruct (str_eqb (Model.category e) cat) eqn:E.
      * apply str_eqb_eq in E. subst cat. now rewrite Hcount.
      * fold (get_default cat 0 counts). rewrite Hcount. lia.
    + intros cat. cbv zeta. rewrite in_keys_dict_set_iff, Hkeys. split.
      * intros [-> | (e' & Hin & Hc)].
        -- exists e. split; [|reflexivity]. apply in_app_iff. right.
           now left.
        -- exists e'. split; [|exact Hc]. apply in_app_iff. now left.
      * intros (e' & Hin & Hc). apply in_app_iff in Hin as [Hin | [<- | []]].
        -- right. now exists e'.
        -- now left.
Qed.

(** X8: [get_knowledge_stats] never raises and changes nothing.  Its
    [total_entries] is the number of entries of the knowledge base.  Its
    [categories] has one key for each category that occurs in the
    knowledge base and no other key, each key once, and the value of a key
    is the number of entries of that category, which is positive; the
    counts add up to [total_entries].  For an empty knowledge base the
    dict is empty and the total is 0. *)
Theorem knowledge_stats_counts (self : Model.UkrainianQAModel) :
  exists st,
    Model.get_knowledge_stats self = (Ok st, self)
    /\ Model.total_entries st = List.length (Model.knowledge_base self)
    /\ NoDup (keys (Model.categories st))
    /\ total_count (Model.categories st) = Model.total_entries st
    /\ (forall cat,
           get_default cat 0 (Model.categories st)
           = entries_in cat (Model.knowledge_base self))
    /\ (forall cat,
           In cat (keys (Model.categories st))
           <-> exists e, In e (Model.knowledge_base self)
                         /\ Model.category e = cat)
    /\ (forall cat n,
           In (cat, n) (Model.categories st) ->
           n = entries_in cat (Model.knowledge_base self) /\ 0 < n)
    /\ (Model.knowledge_base self = [] ->
        Model.categories st = [] /\ Model.total_entries st = 0).
Proof.
  assert (Hgen :
    forall kb : list Model.kb_entry,
      NoDup (keys (Model.count_categories kb))
      /\ total_count (Model.count_categories kb) = List.length kb
      /\ (forall cat,
             get_default cat 0 (Model.count_categories kb)
             = entries_in cat kb)
      /\ (forall cat,
             In cat (keys (Model.count_categories kb))
             <-> exists e, In e kb /\ Model.category e = cat)).
  { intros kb. apply (count_categories_from kb [] []).
    - constructor.
    - reflexivity.
    - reflexivity.
    - intros cat. split; [intros [] | intros (e & [] & _)]. }
  assert (Hpairs :
    forall (kb : list Model.kb_entry) (d : dict nat),
      NoDup (keys d) ->
      (forall cat, get_default cat 0 d = entries_in cat kb) ->
      (forall cat, In cat (keys d)
                   <-> exists e, In e kb /\ Model.category e = cat) ->
      forall cat n, In (cat, n) d -> n = entries_in cat kb /\ 0 < n).
  { intros kb d Hnd Hcount Hkeys cat n Hin.
    assert (Hn : n = entries_in cat kb).
    { rewrite <- Hcount. unfold get_default.
      now rewrite (lookup_in_nodup cat n d Hnd Hin). }
    split; [exact Hn|]. rewrite Hn.
    assert (Hk : In cat (keys d))
      by (apply in_map_iff; now exists (cat, n)).
    apply Hkeys in Hk as (e & He & Hc).
    exact (entries_in_positive cat kb e He Hc). }
  unfold Model.get_knowledge_stats, bind, read, ret.
  destruct (Model.knowledge_base self) as [|e kb] eqn:E.
  - cbn [is_nil]. eexists. split; [reflexivity|].
    cbn [Model.total_entries Model.categories List.length].
    split; [reflexivity|]. split; [constructor|]. split; [reflexivity|].
    split; [reflexivity|].
    split; [intros cat; split; [intros [] | intros (e & [] & _)]|].
    split; [intros cat n []|]. now intros _.
  - cbn [is_nil]. eexists. split; [reflexivity|].
    cbn [Model.total_entries Model.categories].
    destruct (Hgen (e :: kb)) as (Hnd & Htot & Hcount & Hkeys).
    split; [reflexivity|]. split; [exact Hnd|]. split; [exact Htot|].
    split; [exact Hcount|]. split; [exact Hkeys|].
    split; [exact (Hpairs (e :: kb) _ Hnd Hcount Hkeys) | discriminate].
Qed.

(** ** [_initialize_model] *)

Lemma built_not_nil (facts : list Model.kb_entry) :
  is_nil (facts ++ phrase_entries) = false.
Proof. now destruct facts. Qed.

(** The steps of [_initialize_model] after the embedding model is loaded. *)
Lemma initialize_tail (build_index : list str -> result unit)
    (self : Model.UkrainianQAModel) :
  Model.embedding_model self = true ->
  (Model._build_knowledge_base >>
   Model._build_faiss_index build_index >>
   modify (Model.set_model_ready true)) self
  = let built :=
      Model.set_knowledge_base
        (fact_entries (Model.ukrainian_knowledge self) ++ phrase_entries)
        self in
    match build_index (map Model.text (Model.knowledge_base built)) with
    | Ok _ =>
        (Ok tt,
         Model.set_model_ready true (Model.set_faiss_index true built))
    | Raise e => (Raise e, built)
    end.
Proof.
  intros Hem. unfold bind at 1. rewrite build_knowledge_base_run.
  unfold bind at 1. unfold Model._build_faiss_index.
  unfold bind at 1 2, read. cbv zeta.
  cbn [Model.knowledge_base Model.embedding_model Model.set_knowledge_base].
  rewrite built_not_nil, Hem. cbn [negb orb].
  unfold bind, lift, modify.
  now destruct (build_index _) as [[]|e].
Qed.

(** X9: what [__init__] leaves.  The model is ready exactly when every
    step of the [try] block returned: creating the client when a non-empty
    API key is set, loading the embedding model, and building the index
    over the texts of the knowledge base.  A ready model has its embedding
    model and its index set, its client set exactly when a non-empty key
    was found, and a knowledge base of 27 entries: the facts in order,
    then the phrases. *)
Theorem initialize_model_ready (getenv_key : option str)
    (make_client : str -> result unit) (load_embedder : result unit)
    (build_index : list str -> result unit) :
  let self :=
    Model.__init__ getenv_key make_client load_embedder build_index in
  let wants_client :=
    match getenv_key with
    | Some key => negb (is_empty key)
    | None => false
    end in
  let built :=
    fact_entries (Model.ukrainian_knowledge Model.fresh) ++ phrase_entries in
  Model.model_ready self
  = (match getenv_key with
     | Some key =>
         if negb (is_empty key)
         then match make_client key with Ok _ => true | Raise _ => false end
         else true
     | None => true
     end
     && match load_embedder with Ok _ => true | Raise _ => false end
     && match build_index (map Model.text built) with
        | Ok _ => true
        | Raise _ => false
        end)
  /\ (Model.model_ready self = true ->
      Model.embedding_model self = true
      /\ Model.faiss_index self = true
      /\ Model.openai_client self = wants_client
      /\ Model.knowledge_base self = built
      /\ List.length (Model.knowledge_base self) = 27).
Proof.
  cbv zeta.
  assert (Hlen : List.length
                   (fact_entries (Model.ukrainian_knowledge Model.fresh)
                    ++ phrase_entries) = 27) by reflexivity.
  unfold Model.__init__, leaves, Model._initialize_model, try_except.
  unfold bind at 1.
  assert (Hstep :
    forall s : Model.UkrainianQAModel,
      Model.ukrainian_knowledge s = Model.ukrainian_knowledge Model.fresh ->
      Model.model_ready s = false ->
      let out :=
        snd (match
               ((lift load_embedder >>
                 modify (Model.set_embedding_model true)) >>
                Model._build_knowledge_base >>
                Model._build_faiss_index build_index >>
                modify (Model.set_model_ready true)) s
             with
             | (Ok a, s') => (Ok a, s')
             | (Raise e, s') => modify (Model.set_model_ready false) s'
             end) in
      Model.model_ready out
      = (match load_embedder with Ok _ => true | Raise _ => false end
         && match build_index
                    (map Model.text
                       (fact_entries (Model.ukrainian_knowledge Model.fresh)
                        ++ phrase_entries)) with
            | Ok _ => true
            | Raise _ => false
            end)
      /\ (Model.model_ready out = true ->
          Model.embedding_model out = true
          /\ Model.faiss_index out = true
          /\ Model.openai_client out = Model.openai_client s
          /\ Model.knowledge_base out
             = fact_entries (Model.ukrainian_knowledge Model.fresh)
               ++ phrase_entries)).
  { intros s Huk Hnr out.
    assert (E : out
                = match load_embedder with
                  | Ok _ =>
                      let built :=
                        Model.set_knowledge_base
                          (fact_entries
                             (Model.ukrainian_knowledge Model.fresh)
                           ++ phrase_entries)
                          (Model.set_embedding_model true s) in
                      match build_index
                              (map Model.text
                                 (fact_entries
                                    (Model.ukrainian_knowledge Model.fresh)
                                  ++ phrase_entries)) with
                      | Ok _ =>
                          Model.set_model_ready true
                            (Model.set_faiss_index true built)
                      | Raise _ => Model.set_model_ready false built
                      end
                  | Raise _ => Model.set_model_ready false s
                  end).
    { unfold out. unfold bind at 1. unfold bind at 1.
      unfold lift at 1, modify at 1.
      destruct load_embedder as [[]|e]; [|reflexivity].
      rewrite initialize_tail by reflexivity. cbv zeta.
      cbn [Model.knowledge_base Model.set_knowledge_base
             Model.set_embedding_model Model.ukrainian_knowledge].
      rewrite Huk.
      now destruct (build_index _) as [[]|e]. }
    clearbody out. subst out.
    destruct load_embedder as [[]|e];
      [destruct (build_index _) as [[]|e]|];
      cbn [Model.model_ready Model.set_model_ready andb];
      (split; [reflexivity|]); try discriminate.
    intros _. now repeat split. }
  assert (Hfinish :
    forall (s : Model.UkrainianQAModel) (wants : bool) (ready : bool)
           (out : Model.UkrainianQAModel),
      Model.openai_client s = wants ->
      (Model.model_ready out = ready
       /\ (Model.model_ready out = true ->
           Model.embedding_model out = true
           /\ Model.faiss_index out = true
           /\ Model.openai_client out = Model.openai_client s
           /\ Model.knowledge_base out
              = fact_entries (Model.ukrainian_knowledge Model.fresh)
                ++ phrase_entries)) ->
      Model.model_ready out = ready
      /\ (Model.model_ready out = true ->
          Model.embedding_model out = true
          /\ Model.faiss_index out = true
          /\ Model.openai_client out = wants
          /\ Model.knowledge_base out
             = fact_entries (Model.ukrainian_knowledge Model.fresh)
               ++ phrase_entries
          /\ List.length (Model.knowledge_base out) = 27)).
  { intros s wants ready out Hw [H1 H2]. split; [exact H1|].
    intros Hr. destruct (H2 Hr) as (Ha & Hb & Hc & Hd).
    rewrite Hd, Hc, Hw. now repeat split. }
  destruct getenv_key as [key|].
  - destruct (is_empty key); cbn [negb].
    + unfold ret at 1.
      exact (Hfinish Model.fresh false _ _ eq_refl
               (Hstep Model.fresh eq_refl eq_refl)).
    + unfold bind at 1, lift at 1, modify at 1.
      destruct (make_client key) as [[]|e].
      * exact (Hfinish (Model.set_openai_client true Model.fresh) true _ _
                 eq_refl
                 (Hstep (Model.set_openai_client true Model.fresh)
                    eq_refl eq_refl)).
      * cbn. split; [reflexivity | discriminate].
  - unfold ret at 1.
    exact (Hfinish Model.fresh false _ _ eq_refl
             (Hstep Model.fresh eq_refl eq_refl)).
Qed.

(** ** [_find_relevant_context] *)

Lemma py_index_in_range {A} (l : list A) (idx : Z) :
  (- Z.of_nat (List.length l) <= idx < Z.of_nat (List.length l))%Z ->
  exists x, py_index l idx = Ok x /\ In x l.
Proof.
  intros H. unfold py_index. cbv zeta.
  set (position := (if (idx <? 0)%Z
                    then (Z.of_nat (List.length l) + idx)%Z else idx)).
  assert (Hp : (0 <= position < Z.of_nat (List.length l))%Z).
  { unfold position. destruct (Z.ltb_spec idx 0); lia. }
  destruct (Z.ltb_spec position 0); [lia|].
  destruct (nth_error l (Z.to_nat position)) as [x|] eqn:E.
  - exists x. split; [reflexivity|]. now apply nth_error_In in E.
  - apply nth_error_None in E. lia.
Qed.

Lemma py_index_last {A} (l : list A) (x : A) :
  py_index (l ++ [x]) (-1) = Ok x.
Proof.
  unfold py_index. cbv zeta. rewrite length_app. cbn [List.length].
  replace (Z.of_nat (List.length l + 1) + -1)%Z
    with (Z.of_nat (List.length l)) by lia.
  cbn [Z.ltb Z.compare].
  destruct (Z.ltb_spec (Z.of_nat (List.length l)) 0); [lia|].
  rewrite Nat2Z.id, nth_error_app2 by lia.
  now rewrite Nat.sub_diag.
Qed.

Lemma gather_in_range (kb : list Model.kb_entry) (indices : list Z)
    (relevant : list str) :
  forallb (fun idx => (- Z.of_nat (List.length kb) <=? idx)%Z) indices
  = true ->
  exists found,
    Model.gather kb indices relevant = Ok (relevant ++ found)
    /\ found
       = flat_map (fun idx => match picked kb idx with
                              | Some t => [t]
                              | None => []
                              end) indices
    /\ List.length found <= List.length indices
    /\ forall c, In c found -> exists e, In e kb /\ Model.text e = c.
Proof.
  revert relevant; induction indices as [|idx indices IH]; intros relevant H.
  - exists []. cbn. rewrite app_nil_r. repeat split; [lia | contradiction].
  - cbn [forallb] in H. apply andb_true_iff in H as [Hidx Hrest].
    apply Z.leb_le in Hidx. cbn [Model.gather flat_map]. unfold picked at 1.
    destruct (Z.ltb_spec idx (Z.of_nat (List.length kb))) as [Hlt | Hge].
    + destruct (py_index_in_range kb idx (conj Hidx Hlt)) as (e & -> & Hin).
      destruct (IH (relevant ++ [Model.text e]) Hrest)
        as (found & -> & Hf & Hlen & Htexts).
      exists (Model.text e :: found). rewrite <- app_assoc.
      split; [reflexivity|]. split; [cbn [app]; now f_equal|].
      split; [cbn [List.length]; lia|].
      intros c [<- | Hc]; [now exists e | now apply Htexts].
    + destruct (IH relevant Hrest) as (found & -> & Hf & Hlen & Htexts).
      exists found. split; [reflexivity|]. split; [exact Hf|].
      split; [cbn [List.length]; lia | exact Htexts].
Qed.

(** X10: what [_find_relevant_context] retrieves.  With the index and the
    embedding model set, for the indices the search returns (none below
    minus the size of the knowledge base), the method returns, without
    raising and without changing the model, the texts of the entries the
    indices select, in the order of the indices: an index at or above the
    size of the knowledge base is skipped, a negative index counts from
    the end, so that the placeholder -1 of a search that finds too little
    selects the last entry.  The texts are at most as many as the indices
    and each is the text of an entry. *)
Theorem find_relevant_context_picks (search : str -> Z -> result (list Z))
    (self : Model.UkrainianQAModel) (question : str) (top_k : Z)
    (indices : list Z) :
  Model.faiss_index self = true ->
  Model.embedding_model self = true ->
  search question top_k = Ok indices ->
  forallb (fun idx =>
             (- Z.of_nat (List.length (Model.knowledge_base self)) <=? idx)%Z)
    indices = true ->
  exists found,
    Model._find_relevant_context search question top_k self
    = (Ok found, self)
    /\ found
       = flat_map (fun idx =>
                     match picked (Model.knowledge_base self) idx with
                     | Some t => [t]
                     | None => []
                     end) indices
    /\ List.length found <= List.length indices
    /\ (forall c, In c found ->
                  exists e, In e (Model.knowledge_base self)
                            /\ Model.text e = c)
    /\ (forall kb last,
           Model.knowledge_base self = kb ++ [last] ->
           picked (Model.knowledge_base self) (-1)
           = Some (Model.text last)).
Proof.
  intros Hi He Hs Hr.
  destruct (gather_in_range (Model.knowledge_base self) indices [] Hr)
    as (found & Hg & Hf & Hlen & Htexts).
  exists found.
  unfold Model._find_relevant_context, bind, read, lift, ret.
  rewrite Hi, He. cbn [negb orb]. rewrite Hs. cbv beta iota.
  rewrite Hg. cbn [app].
  repeat apply conj; try assumption; try reflexivity.
  intros kb last E. rewrite E. unfold picked.
  rewrite py_index_last, length_app. cbn [List.length].
  destruct (Z.ltb_spec (-1) (Z.of_nat (List.length kb + 1))); [reflexivity|].
  lia.
Qed.

Lemma find_relevant_context_picks_witness :
  let self :=
    Model.__init__ None (fun _ => Ok tt) (Ok tt) (fun _ => Ok tt) in
  exists found,
    Model._find_relevant_context (fun _ _ => Ok [1; 30; -1]%Z)
      (u "What is the capital?") 3 self
    = (Ok found, self)
    /\ found = [u "The capital of Ukraine is Kyiv (Kiev)";
                u "Героям слава - Glory to the Heroes"].
Proof.
  intros self.
  destruct (find_relevant_context_picks (fun _ _ => Ok [1; 30; -1]%Z)
              self (u "What is the capital?") 3 [1; 30; -1]%Z)
    as (found & H1 & H2 & _).
  - reflexivity.
  - reflexivity.
  - reflexivity.
  - vm_compute. reflexivity.
  - exists found. split; [exact H1|]. rewrite H2. vm_compute. reflexivity.
Defined.

(** ** [_get_openai_answer] and [_get_local_answer] *)

Lemma contains_refl (s : str) : contains s s = true.
Proof. apply contains_spec. exists [], []. now rewrite app_nil_r. Qed.

Lemma contains_app_r (p a b : str) :
  contains p b = true -> contains p (a ++ b) = true.
Proof.
  rewrite !contains_spec. intros (x & y & ->).
  exists (a ++ x), y. now rewrite <- app_assoc.
Qed.

Lemma contains_app_l (p a b : str) :
  contains p a = true -> contains p (a ++ b) = true.
Proof.
  rewrite !contains_spec. intros (x & y & ->).
  exists x, (y ++ b). now rewrite <- !app_assoc.
Qed.

Lemma contains_join (sep c : str) (parts : list str) :
  In c parts -> contains c (join sep parts) = true.
Proof.
  induction parts as [|part rest IH]; [contradiction|].
  intros [-> | Hin]; cbn [join]; destruct rest as [|next rest'].
  - apply contains_refl.
  - apply contains_app_l, contains_refl.
  - contradiction.
  - apply contains_app_r, contains_app_r. now apply IH.
Qed.

(** X11: [_get_openai_answer] never raises and changes nothing.  Without
    a client it returns the fixed "no access" message; with a client it
    returns the completion stripped of surrounding white space, and the
    fixed apology when the call raises.  The prompt it sends contains the
    question and the context text, which is the context sentences joined
    by newlines (so it contains each of them), or "No specific context
    available." for an empty context. *)
Theorem openai_answer_never_raises (complete : str -> str -> result str)
    (self : Model.UkrainianQAModel) (question : str) (context : list str) :
  let context_text :=
    if negb (is_nil context) then join newline context
    else u "No specific context available." in
  let prompt := Model.prompt_of context_text question in
  Model._get_openai_answer complete question context self
  = (Ok (if Model.openai_client self then
           match complete Model.system_message prompt with
           | Ok content => strip content
           | Raise _ => api_error_message
           end
         else no_client_message), self)
  /\ contains question prompt = true
  /\ contains context_text prompt = true
  /\ (forall c, In c context -> contains c prompt = true).
Proof.
  cbv zeta.
  assert (Hctx : forall text,
             contains text (Model.prompt_of text question) = true).
  { intros text. unfold Model.prompt_of.
    do 9 apply contains_app_r. apply contains_app_l, contains_refl. }
  repeat apply conj.
  - unfold Model._get_openai_answer, bind at 1, read, no_client_message,
      api_error_message.
    destruct (Model.openai_client self); cbn [negb];
      [|unfold ret; reflexivity].
    unfold try_except, bind, lift, ret. cbv zeta.
    destruct (complete _ _); reflexivity.
  - unfold Model.prompt_of.
    do 14 apply contains_app_r. apply contains_app_l, contains_refl.
  - apply Hctx.
  - intros c Hin. destruct context as [|c0 rest]; [contradiction|].
    cbn [is_nil negb].
    apply (contains_trans _ (join newline (c0 :: rest))); [|apply Hctx].
    now apply contains_join.
Qed.

(** X12: [_get_local_answer] on a non-empty context quotes every context
    sentence: each occurs in the answer, which ends with the sentences
    joined by single spaces; on an empty context the answer is the fixed
    "no specific information" message, whatever the question. *)
Theorem local_answer_quotes_context (lower : str -> str) (question : str)
    (context : list str) (sentence : str) :
  In sentence context ->
  contains sentence (Model._get_local_answer lower question context) = true
  /\ (exists intro,
         Model._get_local_answer lower question context
         = intro ++ join (u " ") context)
  /\ Model._get_local_answer lower question [] = no_context_message.
Proof.
  intros Hin. destruct context as [|c0 rest]; [contradiction|].
  assert (Hj : contains sentence (join (u " ") (c0 :: rest)) = true)
    by now apply contains_join.
  unfold Model._get_local_answer, no_context_message. cbn [is_nil].
  cbv zeta.
  split; [|split; [|reflexivity]].
  - destruct (_ || _); [now apply contains_app_r|].
    destruct (contains (u "history") _); [now apply contains_app_r|].
    destruct (contains (u "culture") _); [now apply contains_app_r|].
    destruct (contains (u "geography") _); now apply contains_app_r.
  - destruct (_ || _); [now eexists|].
    destruct (contains (u "history") _); [now eexists|].
    destruct (contains (u "culture") _); [now eexists|].
    destruct (contains (u "geography") _); now eexists.
Qed.

Lemma local_answer_quotes_context_witness :
  let context := [u "The capital of Ukraine is Kyiv (Kiev)";
                  u "Ukraine is the largest country entirely in Europe"] in
  contains (u "Ukraine is the largest country entirely in Europe")
    (Model._get_local_answer lower_basic (u "Tell me the HISTORY") context)
  = true
  /\ Model._get_local_answer lower_basic (u "Tell me the HISTORY") context
     = u "From Ukrainian history: The capital of Ukraine is Kyiv (Kiev) Ukraine is the largest country entirely in Europe".
Proof.
  intros context. split.
  - apply (local_answer_quotes_context lower_basic
             (u "Tell me the HISTORY") context). right. left. reflexivity.
  - vm_compute. reflexivity.
Defined.

(** ** [get_answer] of the model and the handlers of [app.py] *)

Lemma find_relevant_context_read_only search question top_k :
  read_only (Model._find_relevant_context search question top_k).
Proof.
  unfold Model._find_relevant_context.
  repeat read_only_step.
Qed.

Lemma get_openai_answer_total complete question context
    (self : Model.UkrainianQAModel) :
  exists reply,
    Model._get_openai_answer complete question context self
    = (Ok reply, self).
Proof.
  unfold Model._get_openai_answer, bind at 1, read.
  destruct (Model.openai_client self); cbn [negb]; [|now eexists].
  unfold try_except, bind, lift, ret. cbv zeta.
  destruct (complete _ _); now eexists.
Qed.

Lemma model_get_answer_run lower search complete question
    (self : Model.UkrainianQAModel) :
  Model.get_answer lower search complete question self
  = if Model.model_ready self then
      match Model._find_relevant_context search question 3 self with
      | (Ok context, _) =>
          if Model.openai_client self
          then Model._get_openai_answer complete question context self
          else (Ok (Model._get_local_answer lower question context), self)
      | (Raise e, _) => (Raise e, self)
      end
    else (Ok not_ready_message, self).
Proof.
  unfold Model.get_answer, bind at 1, read, not_ready_message.
  destruct (Model.model_ready self); cbn [negb]; [|reflexivity].
  unfold bind at 1.
  pose proof (find_relevant_context_read_only search question 3 self) as Hro.
  unfold leaves in Hro.
  destruct (Model._find_relevant_context search question 3 self)
    as [[context | e] s']. 
  - cbn [snd] in Hro. subst s'. unfold bind, read, ret.
    now destruct (Model.openai_client self).
  - cbn [snd] in Hro. now subst s'.
Qed.

(** X13: [get_answer] of the model changes no attribute; a model that is
    not ready answers with the fixed "not ready" message and consults
    nothing; a ready model raises only when [_find_relevant_context]
    raises (the search, or an index out of range), never because of the
    completion; and a ready model without client whose index or embedding
    model is missing answers with the "no specific information" message. *)
Theorem model_get_answer_outcomes (lower : str -> str)
    (search : str -> Z -> result (list Z))
    (complete : str -> str -> result str)
    (self : Model.UkrainianQAModel) (question : str) :
  leaves (Model.get_answer lower search complete question) self = self
  /\ (Model.model_ready self = false ->
      returns (Model.get_answer lower search complete question) self
      = Ok not_ready_message)
  /\ (forall e,
         returns (Model.get_answer lower search complete question) self
         = Raise e ->
         returns (Model._find_relevant_context search question 3) self
         = Raise e)
  /\ (Model.model_ready self = true ->
      Model.openai_client self = false ->
      Model.faiss_index self && Model.embedding_model self = false ->
      returns (Model.get_answer lower search complete question) self
      = Ok no_context_message).
Proof.
  unfold leaves, returns. rewrite model_get_answer_run.
  repeat apply conj.
  - destruct (Model.model_ready self); [|reflexivity].
    destruct (Model._find_relevant_context search question 3 self)
      as [[context | e] s']; [|reflexivity].
    destruct (Model.openai_client self); [|reflexivity].
    destruct (get_openai_answer_total complete question context self)
      as [reply ->]. reflexivity.
  - now intros ->.
  - intros e. destruct (Model.model_ready self); [|discriminate].
    destruct (Model._find_relevant_context search question 3 self)
      as [[context | e'] s']; [|intros H; cbn [fst] in *; now injection H as ->].
    destruct (Model.openai_client self); [|discriminate].
    destruct (get_openai_answer_total complete question context self)
      as [reply ->]. discriminate.
  - intros -> -> Hmiss.
    unfold Model._find_relevant_context, bind, read, ret.
    assert (Hg : negb (Model.faiss_index self)
                 || negb (Model.embedding_model self) = true).
    { destruct (Model.faiss_index self), (Model.embedding_model self);
        try reflexivity; discriminate. }
    rewrite Hg. cbv beta iota.
    unfold Model._get_local_answer, no_context_message.
    cbn [is_nil fst]. reflexivity.
Qed.

(** X14: a model whose initialisation failed still answers.  When the
    ready flag is unset, [POST /api/ask] of [app.py] answers every object
    with a non-blank string question with status 200, [success] true and
    the "not ready" message as the answer, without consulting the model
    further, while [GET /api/health] answers status 200, [status] healthy
    and [model_loaded] false. *)
Theorem unready_model_answers (generate : str -> result str)
    (model : ML.UkrainianQAModel) (fields : dict json) (question : str) :
  ML.model_ready model = false ->
  asks fields = Some question ->
  returns (ML.ask_question generate (Ok (JObj fields))) model
  = Ok (jsonify [(u "question", JStr question);
                 (u "answer", JStr not_ready_message);
                 (u "success", JBool true)] 200)
  /\ returns ML.health_check model
     = Ok (jsonify [(u "status", JStr (u "healthy"));
                    (u "model_loaded", JBool false)] 200).
Proof.
  intros Hnr Ha.
  destruct (extract_asks fields question Ha) as (f & Hf & Hq & He).
  split.
  - run_handler. rewrite Hf, Hq, He.
    unfold ML.get_answer, bind, read, not_ready_message. rewrite Hnr.
    reflexivity.
  - unfold returns, ML.health_check, ML.is_ready, bind, read, ret.
    rewrite Hnr. reflexivity.
Qed.

Lemma unready_model_answers_witness :
  let model := ML.__init__ (Raise (RequestError (u "no such model"))) in
  returns (ML.ask_question (fun _ => Ok (u "Kyiv"))
             (Ok (JObj [(u "question", JStr (u "What is the capital?"))])))
    model
  = Ok (jsonify [(u "question", JStr (u "What is the capital?"));
                 (u "answer", JStr not_ready_message);
                 (u "success", JBool true)] 200).
Proof.
  intros model.
  apply (unready_model_answers (fun _ => Ok (u "Kyiv")) model
           [(u "question", JStr (u "What is the capital?"))]
           (u "What is the capital?")).
  - reflexivity.
  - vm_compute. reflexivity.
Defined.

(** X15: a failure of the completion API is reported as a success.  With
    a ready model that has a client, when the context is retrieved and the
    completion call raises, [POST /api/ask] of [app.py] answers status
    200 with [success] true and the apology of [_get_openai_answer] as the
    answer, not the 500 response. *)
Theorem api_failure_reported_as_success (lower : str -> str)
    (search : str -> Z -> result (list Z))
    (complete : str -> str -> result str)
    (self : Model.UkrainianQAModel) (fields : dict json)
    (question : str) (context : list str) (e : exn) :
  Model.model_ready self = true ->
  Model.openai_client self = true ->
  asks fields = Some question ->
  returns (Model._find_relevant_context search question 3) self
  = Ok context ->
  complete Model.system_message
    (Model.prompt_of
       (if negb (is_nil context) then join newline context
        else u "No specific context available.") question)
  = Raise e ->
  returns (ML.ask_question
             (fun q => returns (Model.get_answer lower search complete q)
                         self)
             (Ok (JObj fields))) (Model.handler_view self)
  = Ok (jsonify [(u "question", JStr question);
                 (u "answer", JStr api_error_message);
                 (u "success", JBool true)] 200).
Proof.
  intros Hr Hc Ha Hctx He.
  rewrite (ml_ask_answers _ (Model.handler_view self) fields question Ha Hr).
  unfold returns at 1. rewrite model_get_answer_run, Hr, Hc.
  unfold returns in Hctx.
  destruct (Model._find_relevant_context search question 3 self)
    as [r s']. cbn [fst] in Hctx. subst r.
  unfold Model._get_openai_answer, bind at 1, read. rewrite Hc.
  cbn [negb]. unfold try_except, bind, lift, ret. cbv zeta.
  rewrite He. unfold api_error_message. cbn [fst]. reflexivity.
Qed.

Lemma api_failure_reported_as_success_witness :
  let self :=
    Model.__init__ (Some (u "sk-test")) (fun _ => Ok tt) (Ok tt)
      (fun _ => Ok tt) in
  let search := fun (_ : str) (_ : Z) => Ok [0; 1; 2]%Z in
  let complete :=
    fun (_ _ : str) => @Raise str (RequestError (u "rate limit")) in
  returns (ML.ask_question
             (fun q => returns (Model.get_answer lower_basic search
                                  complete q) self)
             (Ok (JObj [(u "question", JStr (u "What is borscht?"))])))
    (Model.handler_view self)
  = Ok (jsonify [(u "question", JStr (u "What is borscht?"));
                 (u "answer", JStr api_error_message);
                 (u "success", JBool true)] 200).
Proof.
  intros self search complete.
  apply (api_failure_reported_as_success lower_basic search complete self
           [(u "question", JStr (u "What is borscht?"))]
           (u "What is borscht?")
           [u "Ukraine gained independence from the Soviet Union in 1991";
            u "The capital of Ukraine is Kyiv (Kiev)";
            u "Ukraine is the largest country entirely in Europe"]
           (RequestError (u "rate limit"))).
  - reflexivity.
  - reflexivity.
  - vm_compute. reflexivity.
  - vm_compute. reflexivity.
  - reflexivity.
Defined.
